(** * versus-incident: the scheduled-alert subsystem

    A shallow embedding of [pkg/scheduler/scheduler.go] and
    [pkg/scheduler/alertmanager_client.go], together with the part of
    [pkg/config/config.go] that declares the job configuration.

    Go strings are byte strings and are modelled by [string]; Go maps with
    string keys are modelled by [gmap string _] (a nil map and an empty map
    behave alike for every operation used here: [len], lookup and [range]);
    slices are lists.  A value of type [map[string]interface{}] is a
    [gmap string Value].  The clock, the HTTP transport, the JSON decoder and
    the incident service are answers of the outside world and are collected in
    the record [World]; the cron engine (github.com/robfig/cron/v3) and the
    formatting functions of package [time] are parameters. *)

From Stdlib Require Import ZArith Ascii String.
From stdpp Require Import base gmap strings list pretty.

Open Scope string_scope.
Open Scope list_scope.

(** ** Results of fallible Go functions: a value or an error message *)

Inductive result (A : Type) : Type :=
| Ok (a : A)
| Err (msg : string).
Arguments Ok {A} a.
Arguments Err {A} msg.

Definition is_Err {A : Type} (r : result A) : Prop :=
  match r with
  | Ok _ => False
  | Err _ => True
  end.

(** ** Package [strings] *)

(** [strings.Split(s, sep)] for a separator of one byte, which is what the
    only call site passes: the result always has one more element than [s]
    has occurrences of [sep]. *)
Fixpoint strings_Split (s : string) (sep : ascii) : list string :=
  match s with
  | EmptyString => [EmptyString]
  | String c rest =>
      if decide (c = sep) then EmptyString :: strings_Split rest sep
      else match strings_Split rest sep with
           | p :: ps => String c p :: ps
           | [] => [String c EmptyString]
           end
  end.

Fixpoint inCutset (c : ascii) (cutset : string) : bool :=
  match cutset with
  | EmptyString => false
  | String d rest => if decide (c = d) then true else inCutset c rest
  end.

(** [strings.TrimLeft(s, cutset)] for a cutset of ASCII bytes. *)
Fixpoint strings_TrimLeft (s cutset : string) : string :=
  match s with
  | EmptyString => EmptyString
  | String c rest =>
      if inCutset c cutset then strings_TrimLeft rest cutset else s
  end.

(** Number of occurrences of the byte [c] in [s]. *)
Fixpoint countByte (c : ascii) (s : string) : nat :=
  match s with
  | EmptyString => 0
  | String d rest => (if decide (d = c) then 1 else 0) + countByte c rest
  end.

(** [n] copies of the byte [c]. *)
Fixpoint repeatByte (c : ascii) (n : nat) : string :=
  match n with
  | O => EmptyString
  | S k => String c (repeatByte c k)
  end.

Definition startsWith (c : ascii) (s : string) : Prop :=
  match s with
  | EmptyString => False
  | String d _ => d = c
  end.

(** ** scheduler.go: ParseSimpleSchedule *)

Definition ParseSimpleSchedule (simpleTime : string) : result string :=
  let parts := strings_Split simpleTime ":"%char in
  if negb (length parts =? 2)%nat then
    Err "invalid time format, expected HH:MM"
  else
    let hour := strings_TrimLeft (parts !!! 0%nat) "0" in
    let hour := if decide (hour = "") then "0" else hour in
    let minute := strings_TrimLeft (parts !!! 1%nat) "0" in
    let minute := if decide (minute = "") then "0" else minute in
    Ok (minute +:+ " " +:+ hour +:+ " * * *").

(** A field with its leading zeros stripped: [out] is [field] without its
    longest prefix of "0" bytes, or "0" when nothing is left. *)
Definition strippedField (field out : string) : Prop :=
  exists (n : nat) (tail : string),
    field = repeatByte "0"%char n +:+ tail /\
    ~ startsWith "0"%char tail /\
    out = (if decide (tail = "") then "0" else tail).

(** ** config.go: the job configuration *)

Record AlertmanagerConfig := {
  URL : string;
  Username : string;
  Password : string;
}.

Record ScheduledChannelsConfig := {
  SlackChannelID : string;
  TelegramChatID : string;
  LarkWebhookKey : string;
  MSTeamsPowerURLKey : string;
  EmailTo : string;
}.

Record ScheduledJob := {
  Name : string;
  Enable : bool;
  Schedule : string;
  Alertmanager : AlertmanagerConfig;
  MatchLabels : gmap string string;
  Channels : ScheduledChannelsConfig;
}.

Record ScheduledAlertConfig := {
  ConfigEnable : bool;
  Timezone : string;
  Jobs : list ScheduledJob;
}.

(** ** alertmanager_client.go: the data model *)

Record AlertStatus := {
  State : string;
  SilencedBy : list string;
  InhibitedBy : list string;
}.

Record Receiver := {
  ReceiverName : string;
}.

Record AlertmanagerClient := {
  baseURL : string;
  username : string;
  password : string;
}.

(** A value stored under [interface{}] in a payload: a string, a
    [map[string]string], or the slice of per-alert records. *)
#[warnings="-register-all"]
Inductive Value : Type :=
| VString (s : string)
| VLabels (m : gmap string string)
| VRecords (records : list (gmap string Value)).

(** The request built by [GetFiringAlerts] and the response it reads.  The
    body holds what [io.ReadAll] returns: the bytes read and the error, if
    any. *)
Record Request := {
  Method : string;
  RequestURL : string;
  BasicAuth : option (string * string);
  Header : gmap string string;
}.

Record Response := {
  StatusCode : Z;
  Body : string * option string;
}.

(** One thing a firing does to the outside: a log line, or a call of
    [services.CreateIncident]. *)
Inductive Event : Type :=
| Log (line : string)
| CreateIncident (source : string) (payload : gmap string Value)
    (params : gmap string string).

Definition isCreateIncident (e : Event) : bool :=
  match e with
  | Log _ => false
  | CreateIncident _ _ _ => true
  end.

Section Types.
(** [time.Time] *)
Variable Time : Type.

Record AlertmanagerAlert := {
  Labels : gmap string string;
  Annotations : gmap string string;
  StartsAt : Time;
  EndsAt : Time;
  Status : AlertStatus;
  Receivers : list Receiver;
  Fingerprint : string;
  GeneratorURL : string;
}.

(** The answers of the outside world during one firing: [http.NewRequest],
    [httpClient.Do], [json.Unmarshal] into a slice of alerts, the
    successive readings of [time.Now] and [services.CreateIncident] ([None]
    is Go's nil error). *)
Record World := {
  http_NewRequest : string -> string -> result Request;
  httpClient_Do : Request -> result Response;
  json_Unmarshal : string -> result (list AlertmanagerAlert);
  time_Now : nat -> Time;
  services_CreateIncident :
    string -> gmap string Value -> gmap string string -> option string;
}.

(** The closure handed to the cron engine: run in a world, it yields the
    events of that firing in order. *)
Definition JobFunc : Type := World -> list Event.

(** cron.EntryID *)
Definition EntryID : Type := Z.

(** The [Scheduler] struct, over the state [Cron] of the cron engine (the
    mutex has no content in a sequential model). *)
Record Scheduler (Cron : Type) := {
  cron : Cron;
  config : ScheduledAlertConfig;
  jobs : gmap string EntryID;
}.
End Types.

Arguments Labels {Time} _.
Arguments Annotations {Time} _.
Arguments StartsAt {Time} _.
Arguments EndsAt {Time} _.
Arguments Status {Time} _.
Arguments Receivers {Time} _.
Arguments Fingerprint {Time} _.
Arguments GeneratorURL {Time} _.
Arguments http_NewRequest {Time} _ _ _.
Arguments httpClient_Do {Time} _ _.
Arguments json_Unmarshal {Time} _ _.
Arguments time_Now {Time} _ _.
Arguments services_CreateIncident {Time} _ _ _ _.
Arguments cron {Cron} _.
Arguments config {Cron} _.
Arguments jobs {Cron} _.
Arguments Build_Scheduler {Cron} _ _ _.

Section Functions.
Context {Time : Type}.
(** [t.Format(time.RFC3339)] and [t.Unix()] of package [time] *)
Variable Format_RFC3339 : Time -> string.
Variable Unix : Time -> Z.
(** The state of the cron engine and its [AddFunc(spec, cmd)], which
    returns an entry id or the parse error of [spec]. *)
Context {Cron : Type}.
Variable AddFunc : Cron -> string -> JobFunc Time -> Cron * result EntryID.

(** *** alertmanager_client.go *)

Definition NewAlertmanagerClient (baseURL username password : string)
  : AlertmanagerClient :=
  {| baseURL := baseURL; username := username; password := password |}.

Definition SetBasicAuth (req : Request) (user pass : string) : Request :=
  {| Method := Method req; RequestURL := RequestURL req;
     BasicAuth := Some (user, pass); Header := Header req |}.

Definition Header_Set (req : Request) (key value : string) : Request :=
  {| Method := Method req; RequestURL := RequestURL req;
     BasicAuth := BasicAuth req; Header := <[key := value]> (Header req) |}.

Definition isActive (alert : AlertmanagerAlert Time) : bool :=
  bool_decide (State (Status alert) = "active").

Definition GetFiringAlerts (c : AlertmanagerClient) (w : World Time)
  : result (list (AlertmanagerAlert Time)) :=
  let url :=
    baseURL c +:+ "/api/v2/alerts?active=true&silenced=false&inhibited=false" in
  match http_NewRequest w "GET" url with
  | Err err => Err ("failed to create request: " +:+ err)
  | Ok req =>
      let req :=
        if negb (bool_decide (username c = "")) &&
           negb (bool_decide (password c = ""))
        then SetBasicAuth req (username c) (password c) else req in
      let req := Header_Set req "Accept" "application/json" in
      match httpClient_Do w req with
      | Err err => Err ("failed to fetch alerts: " +:+ err)
      | Ok resp =>
          if negb (StatusCode resp =? 200)%Z then
            Err ("alertmanager returned status " +:+ pretty (StatusCode resp)
                 +:+ ": " +:+ (Body resp).1)
          else
            match (Body resp).2 with
            | Some err => Err ("failed to read response body: " +:+ err)
            | None =>
                match json_Unmarshal w (Body resp).1 with
                | Err err => Err ("failed to parse alerts: " +:+ err)
                | Ok alerts =>
                    Ok (foldl (fun firingAlerts alert =>
                                 if isActive alert
                                 then firingAlerts ++ [alert]
                                 else firingAlerts) [] alerts)
                end
            end
      end
  end.

(** The body of the [range] loop of [matchesLabels], over the entries of
    [matchLabels] in the order the iteration visits them. *)
Fixpoint matchesLabels_range (alertLabels : gmap string string)
    (entries : list (string * string)) : bool :=
  match entries with
  | [] => true
  | (key, value) :: rest =>
      match alertLabels !! key with
      | Some alertValue =>
          if negb (bool_decide (alertValue = value)) then false
          else matchesLabels_range alertLabels rest
      | None => false
      end
  end.

Definition matchesLabels (alertLabels matchLabels : gmap string string)
  : bool :=
  matchesLabels_range alertLabels (map_to_list matchLabels).

Definition FilterAlertsByLabels (alerts : list (AlertmanagerAlert Time))
    (matchLabels : gmap string string) : list (AlertmanagerAlert Time) :=
  if (size matchLabels =? 0)%nat then alerts
  else
    foldl (fun filtered alert =>
             if matchesLabels (Labels alert) matchLabels
             then filtered ++ [alert]
             else filtered) [] alerts.

Definition alertPayload (alert : AlertmanagerAlert Time) : gmap string Value :=
  {[ "status" := VString (State (Status alert));
     "labels" := VLabels (Labels alert);
     "annotations" := VLabels (Annotations alert);
     "startsAt" := VString (Format_RFC3339 (StartsAt alert));
     "endsAt" := VString (Format_RFC3339 (EndsAt alert));
     "fingerprint" := VString (Fingerprint alert);
     "generatorURL" := VString (GeneratorURL alert) ]}.

(** [now] is the reading of [time.Now()] used for the group key; [None]
    is the nil map. *)
Definition ConvertToIncidentPayload (now : Time)
    (alerts : list (AlertmanagerAlert Time)) : option (gmap string Value) :=
  match alerts with
  | [] => None
  | firstAlert :: _ =>
      let alertsPayload :=
        foldl (fun alertsPayload alert => alertsPayload ++ [alertPayload alert])
              [] alerts in
      Some {[ "receiver" := VString "scheduled-alert";
              "status" := VString "firing";
              "alerts" := VRecords alertsPayload;
              "commonLabels" := VLabels (Labels firstAlert);
              "commonAnnotations" := VLabels (Annotations firstAlert);
              "externalURL" := VString "";
              "groupKey" := VString ("scheduled-" +:+ pretty (Unix now)) ]}
  end.

(** *** scheduler.go *)

Definition buildParamsFromJob (job : ScheduledJob) : gmap string string :=
  let params : gmap string string := ∅ in
  let params := <["oncall_enable" := "false"]> params in
  let params :=
    if negb (bool_decide (SlackChannelID (Channels job) = ""))
    then <["slack_channel_id" := SlackChannelID (Channels job)]> params
    else params in
  let params :=
    if negb (bool_decide (TelegramChatID (Channels job) = ""))
    then <["telegram_chat_id" := TelegramChatID (Channels job)]> params
    else params in
  let params :=
    if negb (bool_decide (LarkWebhookKey (Channels job) = ""))
    then <["lark_other_webhook_url" := LarkWebhookKey (Channels job)]> params
    else params in
  let params :=
    if negb (bool_decide (MSTeamsPowerURLKey (Channels job) = ""))
    then <["msteams_other_power_url" :=
             MSTeamsPowerURLKey (Channels job)]> params
    else params in
  let params :=
    if negb (bool_decide (EmailTo (Channels job) = ""))
    then <["email_to" := EmailTo (Channels job)]> params
    else params in
  params.

(** The closure returned by [createJobFunc]: the events of one firing, in
    order.  [time.Now] is read once by [ConvertToIncidentPayload] and once
    for [scheduled_time]. *)
Definition createJobFunc (job : ScheduledJob) : JobFunc Time := fun w =>
  let running := [Log ("Running scheduled job: " +:+ Name job)] in
  let client :=
    NewAlertmanagerClient (URL (Alertmanager job))
      (Username (Alertmanager job)) (Password (Alertmanager job)) in
  match GetFiringAlerts client w with
  | Err err =>
      running ++
      [Log ("Error fetching alerts for job '" +:+ Name job +:+ "': " +:+ err)]
  | Ok alerts =>
      let fetched :=
        [Log ("Job '" +:+ Name job +:+ "': Fetched "
              +:+ pretty (length alerts)
              +:+ " firing alerts from Alertmanager")] in
      let matchedAlerts := FilterAlertsByLabels alerts (MatchLabels job) in
      let matched :=
        [Log ("Job '" +:+ Name job +:+ "': "
              +:+ pretty (length matchedAlerts)
              +:+ " alerts matched label filters")] in
      if (length matchedAlerts =? 0)%nat then
        running ++ fetched ++ matched ++
        [Log ("Job '" +:+ Name job
              +:+ "': No alerts matched, skipping notification")]
      else
        match ConvertToIncidentPayload (time_Now w 0%nat) matchedAlerts with
        | None =>
            running ++ fetched ++ matched ++
            [Log ("Job '" +:+ Name job
                  +:+ "': Failed to convert alerts to payload")]
        | Some payload =>
            let payload := <["scheduled_job" := VString (Name job)]> payload in
            let payload :=
              <["scheduled_time" :=
                  VString (Format_RFC3339 (time_Now w 1%nat))]> payload in
            let params := buildParamsFromJob job in
            match services_CreateIncident w "scheduled" payload params with
            | Some err =>
                running ++ fetched ++ matched ++
                [CreateIncident "scheduled" payload params;
                 Log ("Error sending scheduled alert for job '"
                      +:+ Name job +:+ "': " +:+ err)]
            | None =>
                running ++ fetched ++ matched ++
                [CreateIncident "scheduled" payload params;
                 Log ("Job '" +:+ Name job +:+ "': Successfully sent "
                      +:+ pretty (length matchedAlerts)
                      +:+ " alerts to notification channels")]
            end
        end
  end.

(** [addJob] returns the scheduler after the call, the lines it logged and
    its error ([None] is nil). *)
Definition addJob (s : Scheduler Cron) (job : ScheduledJob)
  : Scheduler Cron * list Event * option string :=
  if negb (Enable job) then
    (s, [Log ("Job '" +:+ Name job +:+ "' is disabled, skipping")], None)
  else
    let schedule := Schedule job in
    if bool_decide (schedule = "") then
      (s, [], Some ("schedule is required for job '" +:+ Name job +:+ "'"))
    else
      let jobFunc := createJobFunc job in
      match AddFunc (cron s) schedule jobFunc with
      | (c, Err err) =>
          ({| cron := c; config := config s; jobs := jobs s |}, [],
           Some ("invalid cron expression '" +:+ schedule +:+ "': " +:+ err))
      | (c, Ok entryID) =>
          ({| cron := c; config := config s;
              jobs := <[Name job := entryID]> (jobs s) |},
           [Log ("Added scheduled job '" +:+ Name job
                 +:+ "' with schedule '" +:+ schedule +:+ "'")],
           None)
      end.

(** The process as far as a firing can reach it: the scheduler (registry
    and cron engine) and everything logged or dispatched so far. *)
Record Process := {
  scheduler : Scheduler Cron;
  output : list Event;
}.

(** The cron engine runs the closure of [job]: the closure has no
    parameter and captures only [job], so the scheduler is carried along
    as it is. *)
Definition runJob (p : Process) (job : ScheduledJob) (w : World Time)
  : Process :=
  {| scheduler := scheduler p;
     output := output p ++ createJobFunc job w |}.
End Functions.

Arguments Process : clear implicits.
Arguments Build_Process {Cron} _ _.

(** ** scheduler.go: the lifecycle of the scheduler *)

Section LifecycleTypes.
Variable Time : Type.

(** The fields of [cron.Entry] that the scheduler reads; [EntryJob] is
    [None] for the nil job of the zero entry. *)
Record Entry := {
  EntryNext : Time;
  EntryPrev : Time;
  EntryJob : option (JobFunc Time);
}.

Record JobStatus := {
  StatusName : string;
  NextRun : Time;
  PrevRun : Time;
  Running : bool;
}.
End LifecycleTypes.

Arguments EntryNext {Time} _.
Arguments EntryPrev {Time} _.
Arguments EntryJob {Time} _.
Arguments StatusName {Time} _.
Arguments NextRun {Time} _.
Arguments PrevRun {Time} _.
Arguments Running {Time} _.

Section Lifecycle.
Context {Time : Type}.
Variable Format_RFC3339 : Time -> string.
Variable Unix : Time -> Z.
(** [t.Format("2006-01-02 15:04:05")] *)
Variable Format_DateTime : Time -> string.
(** [*time.Location], [time.Local] and [time.LoadLocation] *)
Context {Location : Type}.
Variable time_Local : Location.
Variable time_LoadLocation : string -> result Location.
(** The cron engine: [cron.New] with the location option, [AddFunc],
    [Start] and [Entry]. *)
Context {Cron : Type}.
Variable cron_New : Location -> Cron.
Variable AddFunc : Cron -> string -> JobFunc Time -> Cron * result EntryID.
Variable cron_Start : Cron -> Cron.
Variable cron_Entry : Cron -> EntryID -> Entry Time.

(** [NewScheduler] returns the scheduler and the warning it may log. *)
Definition NewScheduler (cfg : ScheduledAlertConfig)
  : Scheduler Cron * list Event :=
  let '(location, logged) :=
    if negb (bool_decide (Timezone cfg = "")) then
      match time_LoadLocation (Timezone cfg) with
      | Err err =>
          (time_Local,
           [Log ("Warning: Invalid timezone '" +:+ Timezone cfg
                 +:+ "', using local timezone: " +:+ err)])
      | Ok loc => (loc, [])
      end
    else (time_Local, []) in
  ({| cron := cron_New location; config := cfg; jobs := ∅ |}, logged).

(** The loop of [Start] over the configured jobs: it stops at the first
    job [addJob] refuses and wraps its error. *)
Fixpoint Start_range (s : Scheduler Cron) (configured : list ScheduledJob)
  : Scheduler Cron * list Event * option string :=
  match configured with
  | [] => (s, [], None)
  | job :: rest =>
      match addJob Format_RFC3339 Unix AddFunc s job with
      | (s, logged, Some err) =>
          (s, logged,
           Some ("failed to add job '" +:+ Name job +:+ "': " +:+ err))
      | (s, logged, None) =>
          let '(s, logged', err) := Start_range s rest in
          (s, logged ++ logged', err)
      end
  end.

(** [Start] returns the scheduler after the call, the lines it logged and
    its error.  The last loop visits the registry in the unspecified order
    of a Go map; the model takes the order of [map_to_list]. *)
Definition Start (s : Scheduler Cron)
  : Scheduler Cron * list Event * option string :=
  if negb (ConfigEnable (config s)) then
    (s, [Log "Scheduled alerts are disabled"], None)
  else
    match Start_range s (Jobs (config s)) with
    | (s, logged, Some err) => (s, logged, Some err)
    | (s, logged, None) =>
        let s :=
          {| cron := cron_Start (cron s); config := config s;
             jobs := jobs s |} in
        (s,
         logged ++
         [Log ("Scheduler started with "
               +:+ pretty (length (Jobs (config s))) +:+ " jobs")] ++
         foldl (fun lines '(name, entryID) =>
                  let entry := cron_Entry (cron s) entryID in
                  lines ++
                  [Log ("Job '" +:+ name +:+ "' next run: "
                        +:+ Format_DateTime (EntryNext entry))])
               [] (map_to_list (jobs s)),
         None)
    end.

(** [GetJobStatus]: one status per registry entry, in the order the map is
    visited. *)
Definition GetJobStatus (s : Scheduler Cron) : list (JobStatus Time) :=
  foldl (fun statuses '(name, entryID) =>
           let entry := cron_Entry (cron s) entryID in
           statuses ++
           [{| StatusName := name;
               NextRun := EntryNext entry;
               PrevRun := EntryPrev entry;
               Running := bool_decide (is_Some (EntryJob entry)) |}])
        [] (map_to_list (jobs s)).
End Lifecycle.

Arguments NewScheduler {Location} _ _ {Cron} _ _.
Arguments Start_range {Time} _ _ {Cron} _ _ _.
Arguments Start {Time} _ _ _ {Cron} _ _ _ _.
Arguments GetJobStatus {Time Cron} _ _.

(** ** config.go: the configuration and its per-request overrides

    A field [F] of the struct [SlackConfig] is [Slack_F], and so on for the
    other structs; a map field is [None] when the Go map is nil.  For each
    field that [GetConfigWitParamsOverwrite] assigns there is a function
    [..._set_F] that returns the struct with that field replaced. *)

Record SlackMessageProperties := {
  SlackProps_DisableButton : bool;
  SlackProps_ButtonText : string;
  SlackProps_ButtonStyle : string;
}.

Record SlackConfig := {
  Slack_Enable : bool;
  Slack_Token : string;
  Slack_ChannelID : string;
  Slack_TemplatePath : string;
  Slack_MessageProperties : SlackMessageProperties;
}.

Definition Slack_set_ChannelID (v : string) (c : SlackConfig) : SlackConfig :=
  {| Slack_Enable := Slack_Enable c; Slack_Token := Slack_Token c;
     Slack_ChannelID := v; Slack_TemplatePath := Slack_TemplatePath c;
     Slack_MessageProperties := Slack_MessageProperties c |}.

Record TelegramConfig := {
  Telegram_Enable : bool;
  Telegram_BotToken : string;
  Telegram_ChatID : string;
  Telegram_TemplatePath : string;
  Telegram_UseProxy : bool;
}.

Definition Telegram_set_ChatID (v : string) (c
  : TelegramConfig) : TelegramConfig :=
  {| Telegram_Enable := Telegram_Enable c;
     Telegram_BotToken := Telegram_BotToken c; Telegram_ChatID := v;
     Telegram_TemplatePath := Telegram_TemplatePath c;
     Telegram_UseProxy := Telegram_UseProxy c |}.

Record ViberConfig := {
  Viber_Enable : bool;
  Viber_APIType : string;
  Viber_BotToken : string;
  Viber_UserID : string;
  Viber_TemplatePath : string;
  Viber_ChannelID : string;
  Viber_UseProxy : bool;
}.

Definition Viber_set_UserID (v : string) (c : ViberConfig) : ViberConfig :=
  {| Viber_Enable := Viber_Enable c; Viber_APIType := Viber_APIType c;
     Viber_BotToken := Viber_BotToken c; Viber_UserID := v;
     Viber_TemplatePath := Viber_TemplatePath c;
     Viber_ChannelID := Viber_ChannelID c;
     Viber_UseProxy := Viber_UseProxy c |}.

Definition Viber_set_ChannelID (v : string) (c : ViberConfig) : ViberConfig :=
  {| Viber_Enable := Viber_Enable c; Viber_APIType := Viber_APIType c;
     Viber_BotToken := Viber_BotToken c; Viber_UserID := Viber_UserID c;
     Viber_TemplatePath := Viber_TemplatePath c; Viber_ChannelID := v;
     Viber_UseProxy := Viber_UseProxy c |}.

Record EmailConfig := {
  Email_Enable : bool;
  Email_SMTPHost : string;
  Email_SMTPPort : string;
  Email_Username : string;
  Email_Password : string;
  Email_To : string;
  Email_Subject : string;
  Email_TemplatePath : string;
}.

Definition Email_set_To (v : string) (c : EmailConfig) : EmailConfig :=
  {| Email_Enable := Email_Enable c; Email_SMTPHost := Email_SMTPHost c;
     Email_SMTPPort := Email_SMTPPort c; Email_Username := Email_Username c;
     Email_Password := Email_Password c; Email_To := v;
     Email_Subject := Email_Subject c;
     Email_TemplatePath := Email_TemplatePath c |}.

Definition Email_set_Subject (v : string) (c : EmailConfig) : EmailConfig :=
  {| Email_Enable := Email_Enable c; Email_SMTPHost := Email_SMTPHost c;
     Email_SMTPPort := Email_SMTPPort c; Email_Username := Email_Username c;
     Email_Password := Email_Password c; Email_To := Email_To c;
     Email_Subject := v; Email_TemplatePath := Email_TemplatePath c |}.

Record MSTeamsConfig := {
  MSTeams_Enable : bool;
  MSTeams_TemplatePath : string;
  MSTeams_OtherPowerURLs : option (gmap string string);
  MSTeams_PowerAutomateURL : string;
}.

Definition MSTeams_set_PowerAutomateURL (v : string) (c
  : MSTeamsConfig) : MSTeamsConfig :=
  {| MSTeams_Enable := MSTeams_Enable c;
     MSTeams_TemplatePath := MSTeams_TemplatePath c;
     MSTeams_OtherPowerURLs := MSTeams_OtherPowerURLs c;
     MSTeams_PowerAutomateURL := v |}.

Record LarkConfig := {
  Lark_Enable : bool;
  Lark_WebhookURL : string;
  Lark_TemplatePath : string;
  Lark_OtherWebhookURLs : option (gmap string string);
  Lark_UseProxy : bool;
}.

Definition Lark_set_WebhookURL (v : string) (c : LarkConfig) : LarkConfig :=
  {| Lark_Enable := Lark_Enable c; Lark_WebhookURL := v;
     Lark_TemplatePath := Lark_TemplatePath c;
     Lark_OtherWebhookURLs := Lark_OtherWebhookURLs c;
     Lark_UseProxy := Lark_UseProxy c |}.

Record AlertConfig := {
  Alert_DebugBody : bool;
  Alert_Slack : SlackConfig;
  Alert_Telegram : TelegramConfig;
  Alert_Viber : ViberConfig;
  Alert_Email : EmailConfig;
  Alert_MSTeams : MSTeamsConfig;
  Alert_Lark : LarkConfig;
}.

Definition Alert_set_Slack (v : SlackConfig) (c : AlertConfig) : AlertConfig :=
  {| Alert_DebugBody := Alert_DebugBody c; Alert_Slack := v;
     Alert_Telegram := Alert_Telegram c; Alert_Viber := Alert_Viber c;
     Alert_Email := Alert_Email c; Alert_MSTeams := Alert_MSTeams c;
     Alert_Lark := Alert_Lark c |}.

Definition Alert_set_Telegram (v : TelegramConfig) (c
  : AlertConfig) : AlertConfig :=
  {| Alert_DebugBody := Alert_DebugBody c; Alert_Slack := Alert_Slack c;
     Alert_Telegram := v; Alert_Viber := Alert_Viber c;
     Alert_Email := Alert_Email c; Alert_MSTeams := Alert_MSTeams c;
     Alert_Lark := Alert_Lark c |}.

Definition Alert_set_Viber (v : ViberConfig) (c : AlertConfig) : AlertConfig :=
  {| Alert_DebugBody := Alert_DebugBody c; Alert_Slack := Alert_Slack c;
     Alert_Telegram := Alert_Telegram c; Alert_Viber := v;
     Alert_Email := Alert_Email c; Alert_MSTeams := Alert_MSTeams c;
     Alert_Lark := Alert_Lark c |}.

Definition Alert_set_Email (v : EmailConfig) (c : AlertConfig) : AlertConfig :=
  {| Alert_DebugBody := Alert_DebugBody c; Alert_Slack := Alert_Slack c;
     Alert_Telegram := Alert_Telegram c; Alert_Viber := Alert_Viber c;
     Alert_Email := v; Alert_MSTeams := Alert_MSTeams c;
     Alert_Lark := Alert_Lark c |}.

Definition Alert_set_MSTeams (v : MSTeamsConfig) (c
  : AlertConfig) : AlertConfig :=
  {| Alert_DebugBody := Alert_DebugBody c; Alert_Slack := Alert_Slack c;
     Alert_Telegram := Alert_Telegram c; Alert_Viber := Alert_Viber c;
     Alert_Email := Alert_Email c; Alert_MSTeams := v;
     Alert_Lark := Alert_Lark c |}.

Definition Alert_set_Lark (v : LarkConfig) (c : AlertConfig) : AlertConfig :=
  {| Alert_DebugBody := Alert_DebugBody c; Alert_Slack := Alert_Slack c;
     Alert_Telegram := Alert_Telegram c; Alert_Viber := Alert_Viber c;
     Alert_Email := Alert_Email c; Alert_MSTeams := Alert_MSTeams c;
     Alert_Lark := v |}.

Record SNSConfig := {
  SNS_Enable : bool;
  SNS_TopicARN : string;
  SNS_Endpoint : string;
  SNS_EndpointPath : string;
}.

Record SQSConfig := {
  SQS_Enable : bool;
  SQS_QueueURL : string;
}.

Record PubSubConfig := {
  PubSub_Enable : bool;
}.

Record AzBusConfig := {
  AzBus_Enable : bool;
}.

Record QueueConfig := {
  Queue_Enable : bool;
  Queue_DebugBody : bool;
  Queue_SNS : SNSConfig;
  Queue_SQS : SQSConfig;
  Queue_PubSub : PubSubConfig;
  Queue_AzBus : AzBusConfig;
}.

Record AwsIncidentManagerConfig := {
  AwsIM_ResponsePlanArn : string;
  AwsIM_OtherResponsePlanArns : option (gmap string string);
}.

Definition AwsIM_set_ResponsePlanArn (v : string) (c
  : AwsIncidentManagerConfig) : AwsIncidentManagerConfig :=
  {| AwsIM_ResponsePlanArn := v;
     AwsIM_OtherResponsePlanArns := AwsIM_OtherResponsePlanArns c |}.

Record PagerDutyConfig := {
  PagerDuty_RoutingKey : string;
  PagerDuty_OtherRoutingKeys : option (gmap string string);
}.

Definition PagerDuty_set_RoutingKey (v : string) (c
  : PagerDutyConfig) : PagerDutyConfig :=
  {| PagerDuty_RoutingKey := v;
     PagerDuty_OtherRoutingKeys := PagerDuty_OtherRoutingKeys c |}.

Record OnCallConfig := {
  OnCall_Enable : bool;
  OnCall_InitializedOnly : bool;
  OnCall_WaitMinutes : Z;
  OnCall_Provider : string;
  OnCall_AwsIncidentManager : AwsIncidentManagerConfig;
  OnCall_PagerDuty : PagerDutyConfig;
}.

Definition OnCall_set_Enable (v : bool) (c : OnCallConfig) : OnCallConfig :=
  {| OnCall_Enable := v; OnCall_InitializedOnly := OnCall_InitializedOnly c;
     OnCall_WaitMinutes := OnCall_WaitMinutes c;
     OnCall_Provider := OnCall_Provider c;
     OnCall_AwsIncidentManager := OnCall_AwsIncidentManager c;
     OnCall_PagerDuty := OnCall_PagerDuty c |}.

Definition OnCall_set_WaitMinutes (v : Z) (c : OnCallConfig) : OnCallConfig :=
  {| OnCall_Enable := OnCall_Enable c;
     OnCall_InitializedOnly := OnCall_InitializedOnly c;
     OnCall_WaitMinutes := v; OnCall_Provider := OnCall_Provider c;
     OnCall_AwsIncidentManager := OnCall_AwsIncidentManager c;
     OnCall_PagerDuty := OnCall_PagerDuty c |}.

Definition OnCall_set_AwsIncidentManager (v : AwsIncidentManagerConfig) (c
  : OnCallConfig) : OnCallConfig :=
  {| OnCall_Enable := OnCall_Enable c;
     OnCall_InitializedOnly := OnCall_InitializedOnly c;
     OnCall_WaitMinutes := OnCall_WaitMinutes c;
     OnCall_Provider := OnCall_Provider c; OnCall_AwsIncidentManager := v;
     OnCall_PagerDuty := OnCall_PagerDuty c |}.

Definition OnCall_set_PagerDuty (v : PagerDutyConfig) (c
  : OnCallConfig) : OnCallConfig :=
  {| OnCall_Enable := OnCall_Enable c;
     OnCall_InitializedOnly := OnCall_InitializedOnly c;
     OnCall_WaitMinutes := OnCall_WaitMinutes c;
     OnCall_Provider := OnCall_Provider c;
     OnCall_AwsIncidentManager := OnCall_AwsIncidentManager c;
     OnCall_PagerDuty := v |}.

Record ProxyConfig := {
  Proxy_URL : string;
  Proxy_Username : string;
  Proxy_Password : string;
}.

Record RedisConfig := {
  Redis_Host : string;
  Redis_Port : Z;
  Redis_Password : string;
  Redis_DB : Z;
  Redis_InsecureSkipVerify : bool;
}.

Record Config := {
  Config_Name : string;
  Config_Host : string;
  Config_Port : Z;
  Config_PublicHost : string;
  Config_Alert : AlertConfig;
  Config_Queue : QueueConfig;
  Config_OnCall : OnCallConfig;
  Config_Proxy : ProxyConfig;
  Config_ScheduledAlert : ScheduledAlertConfig;
  Config_Redis : RedisConfig;
}.

Definition Config_set_Alert (v : AlertConfig) (c : Config) : Config :=
  {| Config_Name := Config_Name c; Config_Host := Config_Host c;
     Config_Port := Config_Port c; Config_PublicHost := Config_PublicHost c;
     Config_Alert := v; Config_Queue := Config_Queue c;
     Config_OnCall := Config_OnCall c; Config_Proxy := Config_Proxy c;
     Config_ScheduledAlert := Config_ScheduledAlert c;
     Config_Redis := Config_Redis c |}.

Definition Config_set_OnCall (v : OnCallConfig) (c : Config) : Config :=
  {| Config_Name := Config_Name c; Config_Host := Config_Host c;
     Config_Port := Config_Port c; Config_PublicHost := Config_PublicHost c;
     Config_Alert := Config_Alert c; Config_Queue := Config_Queue c;
     Config_OnCall := v; Config_Proxy := Config_Proxy c;
     Config_ScheduledAlert := Config_ScheduledAlert c;
     Config_Redis := Config_Redis c |}.

(** [strconv.ParseBool], as far as a caller that only tests the error for
    nil can tell: [None] is the syntax error. *)
Definition strconv_ParseBool (str : string) : option bool :=
  if bool_decide (str ∈ ["1"; "t"; "T"; "TRUE"; "true"; "True"]) then Some true
  else if bool_decide (str ∈ ["0"; "f"; "F"; "FALSE"; "false"; "False"])
  then Some false
  else None.

(** [m[key]] for a [map[string]string]: the empty string when the key is
    missing. *)
Definition index (m : gmap string string) (key : string) : string :=
  default "" (m !! key).

(** The assignments to the fields of the cloned configuration. *)
Definition assign_Slack_ChannelID (v : string) (c : Config) : Config :=
  let a := Config_Alert c in
  Config_set_Alert
    (Alert_set_Slack (Slack_set_ChannelID v (Alert_Slack a)) a) c.

Definition assign_Telegram_ChatID (v : string) (c : Config) : Config :=
  let a := Config_Alert c in
  Config_set_Alert
    (Alert_set_Telegram (Telegram_set_ChatID v (Alert_Telegram a)) a) c.

Definition assign_Viber_UserID (v : string) (c : Config) : Config :=
  let a := Config_Alert c in
  Config_set_Alert (Alert_set_Viber (Viber_set_UserID v (Alert_Viber a)) a) c.

Definition assign_Viber_ChannelID (v : string) (c : Config) : Config :=
  let a := Config_Alert c in
  Config_set_Alert
    (Alert_set_Viber (Viber_set_ChannelID v (Alert_Viber a)) a) c.

Definition assign_Email_To (v : string) (c : Config) : Config :=
  let a := Config_Alert c in
  Config_set_Alert (Alert_set_Email (Email_set_To v (Alert_Email a)) a) c.

Definition assign_Email_Subject (v : string) (c : Config) : Config :=
  let a := Config_Alert c in
  Config_set_Alert (Alert_set_Email (Email_set_Subject v (Alert_Email a)) a) c.

Definition assign_MSTeams_PowerAutomateURL (v : string) (c : Config) : Config :=
  let a := Config_Alert c in
  Config_set_Alert
    (Alert_set_MSTeams (MSTeams_set_PowerAutomateURL v (Alert_MSTeams a)) a) c.

Definition assign_Lark_WebhookURL (v : string) (c : Config) : Config :=
  let a := Config_Alert c in
  Config_set_Alert
    (Alert_set_Lark (Lark_set_WebhookURL v (Alert_Lark a)) a) c.

Definition assign_OnCall_Enable (v : bool) (c : Config) : Config :=
  Config_set_OnCall (OnCall_set_Enable v (Config_OnCall c)) c.

Definition assign_OnCall_WaitMinutes (v : Z) (c : Config) : Config :=
  Config_set_OnCall (OnCall_set_WaitMinutes v (Config_OnCall c)) c.

Definition assign_AwsIM_ResponsePlanArn (v : string) (c : Config) : Config :=
  let o := Config_OnCall c in
  Config_set_OnCall
    (OnCall_set_AwsIncidentManager
       (AwsIM_set_ResponsePlanArn v (OnCall_AwsIncidentManager o)) o) c.

Definition assign_PagerDuty_RoutingKey (v : string) (c : Config) : Config :=
  let o := Config_OnCall c in
  Config_set_OnCall
    (OnCall_set_PagerDuty
       (PagerDuty_set_RoutingKey v (OnCall_PagerDuty o)) o) c.

(** The twelve [if] statements of [GetConfigWitParamsOverwrite], one
    function each, named after the parameter it reads: each takes the
    cloned configuration as it is before the statement and returns it as it
    is after. *)

Definition overwrite_slack_channel_id
    (paramsOverwrite : gmap string string) (clonedCfg : Config) : Config :=
  let v := index paramsOverwrite "slack_channel_id" in
  if negb (bool_decide (v = "")) then assign_Slack_ChannelID v clonedCfg
  else clonedCfg.

Definition overwrite_telegram_chat_id
    (paramsOverwrite : gmap string string) (clonedCfg : Config) : Config :=
  let v := index paramsOverwrite "telegram_chat_id" in
  if negb (bool_decide (v = "")) then assign_Telegram_ChatID v clonedCfg
  else clonedCfg.

Definition overwrite_viber_user_id
    (paramsOverwrite : gmap string string) (clonedCfg : Config) : Config :=
  let v := index paramsOverwrite "viber_user_id" in
  if negb (bool_decide (v = "")) then assign_Viber_UserID v clonedCfg
  else clonedCfg.

Definition overwrite_viber_channel_id
    (paramsOverwrite : gmap string string) (clonedCfg : Config) : Config :=
  let v := index paramsOverwrite "viber_channel_id" in
  if negb (bool_decide (v = "")) then assign_Viber_ChannelID v clonedCfg
  else clonedCfg.

Definition overwrite_email_to
    (paramsOverwrite : gmap string string) (clonedCfg : Config) : Config :=
  let v := index paramsOverwrite "email_to" in
  if negb (bool_decide (v = "")) then assign_Email_To v clonedCfg
  else clonedCfg.

Definition overwrite_email_subject
    (paramsOverwrite : gmap string string) (clonedCfg : Config) : Config :=
  let v := index paramsOverwrite "email_subject" in
  if negb (bool_decide (v = "")) then assign_Email_Subject v clonedCfg
  else clonedCfg.

Definition overwrite_msteams_other_power_url
    (paramsOverwrite : gmap string string) (clonedCfg : Config) : Config :=
  let v := index paramsOverwrite "msteams_other_power_url" in
  if negb (bool_decide (v = "")) then
    match MSTeams_OtherPowerURLs (Alert_MSTeams (Config_Alert clonedCfg)) with
    | Some alternatives =>
        let powerUrl := index alternatives v in
        if negb (bool_decide (powerUrl = ""))
        then assign_MSTeams_PowerAutomateURL powerUrl clonedCfg
        else clonedCfg
    | None => clonedCfg
    end
  else clonedCfg.

Definition overwrite_lark_other_webhook_url
    (paramsOverwrite : gmap string string) (clonedCfg : Config) : Config :=
  let v := index paramsOverwrite "lark_other_webhook_url" in
  if negb (bool_decide (v = "")) then
    match Lark_OtherWebhookURLs (Alert_Lark (Config_Alert clonedCfg)) with
    | Some alternatives =>
        let webhookURL := index alternatives v in
        if negb (bool_decide (webhookURL = ""))
        then assign_Lark_WebhookURL webhookURL clonedCfg
        else clonedCfg
    | None => clonedCfg
    end
  else clonedCfg.

Definition overwrite_oncall_enable
    (paramsOverwrite : gmap string string) (clonedCfg : Config) : Config :=
  let v := index paramsOverwrite "oncall_enable" in
  if negb (bool_decide (v = "")) then
    match strconv_ParseBool v with
    | Some parsedBool => assign_OnCall_Enable parsedBool clonedCfg
    | None => clonedCfg
    end
  else clonedCfg.

Definition overwrite_awsim_other_response_plan
    (paramsOverwrite : gmap string string) (clonedCfg : Config) : Config :=
  let v := index paramsOverwrite "awsim_other_response_plan" in
  if negb (bool_decide (v = "")) then
    match AwsIM_OtherResponsePlanArns
           (OnCall_AwsIncidentManager (Config_OnCall clonedCfg)) with
    | Some alternatives =>
        let responsePlanArn := index alternatives v in
        if negb (bool_decide (responsePlanArn = ""))
        then assign_AwsIM_ResponsePlanArn responsePlanArn clonedCfg
        else clonedCfg
    | None => clonedCfg
    end
  else clonedCfg.

Definition overwrite_pagerduty_other_routing_key
    (paramsOverwrite : gmap string string) (clonedCfg : Config) : Config :=
  let v := index paramsOverwrite "pagerduty_other_routing_key" in
  if negb (bool_decide (v = "")) then
    match PagerDuty_OtherRoutingKeys
           (OnCall_PagerDuty (Config_OnCall clonedCfg)) with
    | Some alternatives =>
        let routingKey := index alternatives v in
        if negb (bool_decide (routingKey = ""))
        then assign_PagerDuty_RoutingKey routingKey clonedCfg
        else clonedCfg
    | None => clonedCfg
    end
  else clonedCfg.

Section Overwrite.
(** [cloneConfig] is defined in a file of the package that is not at hand,
    and [strconv.ParseFloat] with the conversion to [int] works on floating
    point numbers: both are parameters. *)
Variable cloneConfig : Config -> Config.
Context {Float64 : Type}.
Variable strconv_ParseFloat : string -> option Float64.
Variable int_of_float64 : Float64 -> Z.

Definition overwrite_oncall_wait_minutes
    (paramsOverwrite : gmap string string) (clonedCfg : Config) : Config :=
  let v := index paramsOverwrite "oncall_wait_minutes" in
  if negb (bool_decide (v = "")) then
    match strconv_ParseFloat v with
    | Some waitMinutesFloat =>
        assign_OnCall_WaitMinutes (int_of_float64 waitMinutesFloat) clonedCfg
    | None => clonedCfg
    end
  else clonedCfg.

(** [cfg] is the global configuration. *)
Definition GetConfigWitParamsOverwrite (cfg : Config)
    (paramsOverwrite : gmap string string) : Config :=
  let clonedCfg := cloneConfig cfg in
  let clonedCfg := overwrite_slack_channel_id paramsOverwrite clonedCfg in
  let clonedCfg := overwrite_telegram_chat_id paramsOverwrite clonedCfg in
  let clonedCfg := overwrite_viber_user_id paramsOverwrite clonedCfg in
  let clonedCfg := overwrite_viber_channel_id paramsOverwrite clonedCfg in
  let clonedCfg := overwrite_email_to paramsOverwrite clonedCfg in
  let clonedCfg := overwrite_email_subject paramsOverwrite clonedCfg in
  let clonedCfg :=
    overwrite_msteams_other_power_url paramsOverwrite clonedCfg in
  let clonedCfg := overwrite_lark_other_webhook_url paramsOverwrite clonedCfg in
  let clonedCfg := overwrite_oncall_enable paramsOverwrite clonedCfg in
  let clonedCfg := overwrite_oncall_wait_minutes paramsOverwrite clonedCfg in
  let clonedCfg :=
    overwrite_awsim_other_response_plan paramsOverwrite clonedCfg in
  let clonedCfg :=
    overwrite_pagerduty_other_routing_key paramsOverwrite clonedCfg in
  clonedCfg.
End Overwrite.

Arguments overwrite_oncall_wait_minutes {Float64} _ _ _ _.
Arguments GetConfigWitParamsOverwrite _ {Float64} _ _ _ _.

(** ** Helpers of the statements *)

(** A number of the clock as it is written in "HH:MM": two digits. *)
Definition twoDigits (n : nat) : string :=
  if (n <? 10)%nat then "0" +:+ pretty n else pretty n.

(** The twelve parameters that [GetConfigWitParamsOverwrite] reads. *)
Definition overwriteKeys : list string :=
  [ "slack_channel_id"; "telegram_chat_id"; "viber_user_id";
    "viber_channel_id"; "email_to"; "email_subject";
    "msteams_other_power_url"; "lark_other_webhook_url"; "oncall_enable";
    "oncall_wait_minutes"; "awsim_other_response_plan";
    "pagerduty_other_routing_key" ].

(** A configuration with the twelve fields that
    [GetConfigWitParamsOverwrite] may assign set to fixed values: two
    configurations with the same image differ in those fields at most. *)
Definition clearAssigned (c : Config) : Config :=
  assign_Slack_ChannelID ""
    (assign_Telegram_ChatID ""
       (assign_Viber_UserID ""
          (assign_Viber_ChannelID ""
             (assign_Email_To ""
                (assign_Email_Subject ""
                   (assign_MSTeams_PowerAutomateURL ""
                      (assign_Lark_WebhookURL ""
                         (assign_OnCall_Enable false
                            (assign_OnCall_WaitMinutes 0
                               (assign_AwsIM_ResponsePlanArn ""
                                  (assign_PagerDuty_RoutingKey ""
                                     c))))))))))).

(** ** Sample data

    A sample instant is given by its RFC 3339 text and its Unix seconds; the
    sample cron engine accepts every spec and keeps, for each entry, the spec
    string it was handed. *)

Module Sample.
Definition Instant : Type := string * Z.
Definition Format_RFC3339 (t : Instant) : string := t.1.
Definition Unix (t : Instant) : Z := t.2.

Definition RecordingCron : Type := list (EntryID * string).

Definition AddFunc (c : RecordingCron) (spec : string) (cmd : JobFunc Instant)
  : RecordingCron * result EntryID :=
  let id := (Z.of_nat (length c) + 1)%Z in
  (c ++ [(id, spec)], Ok id).

Definition nine : Instant := ("2024-03-01T09:00:00Z", 1709283600%Z).

Definition alert (state : string) (labels : gmap string string) (fp : string)
  : AlertmanagerAlert Instant :=
  {| Labels := labels;
     Annotations := {[ "summary" := "disk almost full" ]};
     StartsAt := ("2024-03-01T08:15:00Z", 1709280900%Z);
     EndsAt := ("0001-01-01T00:00:00Z", (-62135596800)%Z);
     Status := {| State := state; SilencedBy := []; InhibitedBy := [] |};
     Receivers := [ {| ReceiverName := "default" |} ];
     Fingerprint := fp;
     GeneratorURL := "http://prometheus:9090/graph" |}.

Definition diskProd : AlertmanagerAlert Instant :=
  alert "active" {[ "alertname" := "DiskFull"; "env" := "prod" ]} "a1".
Definition diskDev : AlertmanagerAlert Instant :=
  alert "active" {[ "alertname" := "DiskFull"; "env" := "dev" ]} "b2".
Definition cpuProd : AlertmanagerAlert Instant :=
  alert "active" {[ "alertname" := "HighCPU"; "env" := "prod" ]} "c3".
Definition suppressed : AlertmanagerAlert Instant :=
  alert "suppressed" {[ "alertname" := "DiskFull"; "env" := "prod" ]} "d4".

(** A backend that answers 200 with a body decoding to [alerts], and an
    incident service that accepts every incident. *)
Definition world (alerts : list (AlertmanagerAlert Instant)) : World Instant :=
  {| http_NewRequest := fun method url =>
       Ok {| Method := method; RequestURL := url;
             BasicAuth := None; Header := ∅ |};
     httpClient_Do := fun _ => Ok {| StatusCode := 200; Body := ("[]", None) |};
     json_Unmarshal := fun _ => Ok alerts;
     time_Now := fun n => ("2024-03-01T09:00:00Z", 1709283600 + Z.of_nat n)%Z;
     services_CreateIncident := fun _ _ _ => None |}.

(** A backend that cannot be reached. *)
Definition unreachable : World Instant :=
  {| http_NewRequest := fun method url =>
       Ok {| Method := method; RequestURL := url;
             BasicAuth := None; Header := ∅ |};
     httpClient_Do := fun _ => Err "dial tcp: connection refused";
     json_Unmarshal := fun _ => Ok [];
     time_Now := fun n => ("2024-03-01T09:00:00Z", 1709283600 + Z.of_nat n)%Z;
     services_CreateIncident := fun _ _ _ => None |}.

Definition job (schedule : string) (matchLabels : gmap string string)
  : ScheduledJob :=
  {| Name := "morning-disk-report";
     Enable := true;
     Schedule := schedule;
     Alertmanager :=
       {| URL := "http://alertmanager:9093"; Username := ""; Password := "" |};
     MatchLabels := matchLabels;
     Channels :=
       {| SlackChannelID := "C0123456"; TelegramChatID := "";
          LarkWebhookKey := ""; MSTeamsPowerURLKey := "";
          EmailTo := "ops@example.com" |} |}.

Definition emptyScheduler : Scheduler RecordingCron :=
  {| cron := [];
     config := {| ConfigEnable := true; Timezone := ""; Jobs := [] |};
     jobs := ∅ |}.
End Sample.

(** A sample system around the sample engine: time zones are names and
    only one is known; an entry of the engine has a job exactly when its
    id was handed out. *)
Module SampleSystem.
Definition Location : Type := string.
Definition time_Local : Location := "Local".

Definition time_LoadLocation (name : string) : result Location :=
  if bool_decide (name = "Asia/Ho_Chi_Minh") then Ok name
  else Err ("unknown time zone " +:+ name).

Definition Format_DateTime (t : Sample.Instant) : string := t.1.

Definition cron_New (location : Location) : Sample.RecordingCron := [].
Definition cron_Start (c : Sample.RecordingCron) : Sample.RecordingCron := c.

Definition never : Sample.Instant :=
  ("0001-01-01T00:00:00Z", (-62135596800)%Z).

Definition cron_Entry (c : Sample.RecordingCron) (entryID : EntryID)
  : Entry Sample.Instant :=
  if bool_decide (entryID ∈ c.*1) then
    {| EntryNext := Sample.nine; EntryPrev := never;
       EntryJob := Some (fun _ => []) |}
  else {| EntryNext := never; EntryPrev := never; EntryJob := None |}.

Definition evening : ScheduledJob :=
  {| Name := "evening-cpu-report";
     Enable := false;
     Schedule := "";
     Alertmanager :=
       {| URL := "http://alertmanager:9093"; Username := ""; Password := "" |};
     MatchLabels := {[ "alertname" := "HighCPU" ]};
     Channels :=
       {| SlackChannelID := ""; TelegramChatID := ""; LarkWebhookKey := "";
          MSTeamsPowerURLKey := ""; EmailTo := "" |} |}.

Definition broken : ScheduledJob :=
  {| Name := "broken-report";
     Enable := true;
     Schedule := "";
     Alertmanager :=
       {| URL := "http://alertmanager:9093"; Username := ""; Password := "" |};
     MatchLabels := ∅;
     Channels :=
       {| SlackChannelID := ""; TelegramChatID := ""; LarkWebhookKey := "";
          MSTeamsPowerURLKey := ""; EmailTo := "" |} |}.

Definition scheduled (configured : list ScheduledJob) : ScheduledAlertConfig :=
  {| ConfigEnable := true; Timezone := "Mars/Olympus"; Jobs := configured |}.

Definition configuration : Config :=
  {| Config_Name := "versus"; Config_Host := "0.0.0.0"; Config_Port := 3000;
     Config_PublicHost := "";
     Config_Alert :=
       {| Alert_DebugBody := false;
          Alert_Slack :=
            {| Slack_Enable := true; Slack_Token := "xoxb-token";
               Slack_ChannelID := "C0DEFAULT";
               Slack_TemplatePath := "config/slack_message.tmpl";
               Slack_MessageProperties :=
                 {| SlackProps_DisableButton := false;
                    SlackProps_ButtonText := "Acknowledge";
                    SlackProps_ButtonStyle := "primary" |} |};
          Alert_Telegram :=
            {| Telegram_Enable := false; Telegram_BotToken := "";
               Telegram_ChatID := ""; Telegram_TemplatePath := "";
               Telegram_UseProxy := false |};
          Alert_Viber :=
            {| Viber_Enable := false; Viber_APIType := "channel";
               Viber_BotToken := ""; Viber_UserID := "";
               Viber_TemplatePath := ""; Viber_ChannelID := "";
               Viber_UseProxy := false |};
          Alert_Email :=
            {| Email_Enable := true; Email_SMTPHost := "smtp.example.com";
               Email_SMTPPort := "587"; Email_Username := "alerts";
               Email_Password := "secret"; Email_To := "team@example.com";
               Email_Subject := "Incident"; Email_TemplatePath := "" |};
          Alert_MSTeams :=
            {| MSTeams_Enable := false; MSTeams_TemplatePath := "";
               MSTeams_OtherPowerURLs := None;
               MSTeams_PowerAutomateURL := "" |};
          Alert_Lark :=
            {| Lark_Enable := true;
               Lark_WebhookURL := "https://lark.example.com/default";
               Lark_TemplatePath := "";
               Lark_OtherWebhookURLs :=
                 Some {[ "dev" := "https://lark.example.com/dev" ]};
               Lark_UseProxy := false |} |};
     Config_Queue :=
       {| Queue_Enable := false; Queue_DebugBody := false;
          Queue_SNS :=
            {| SNS_Enable := false; SNS_TopicARN := ""; SNS_Endpoint := "";
               SNS_EndpointPath := "" |};
          Queue_SQS := {| SQS_Enable := false; SQS_QueueURL := "" |};
          Queue_PubSub := {| PubSub_Enable := false |};
          Queue_AzBus := {| AzBus_Enable := false |} |};
     Config_OnCall :=
       {| OnCall_Enable := true; OnCall_InitializedOnly := false;
          OnCall_WaitMinutes := 3; OnCall_Provider := "pagerduty";
          OnCall_AwsIncidentManager :=
            {| AwsIM_ResponsePlanArn := "";
               AwsIM_OtherResponsePlanArns := None |};
          OnCall_PagerDuty :=
            {| PagerDuty_RoutingKey := "R0DEFAULT";
               PagerDuty_OtherRoutingKeys := None |} |};
     Config_Proxy :=
       {| Proxy_URL := ""; Proxy_Username := ""; Proxy_Password := "" |};
     Config_ScheduledAlert := scheduled [];
     Config_Redis :=
       {| Redis_Host := "localhost"; Redis_Port := 6379;
          Redis_Password := ""; Redis_DB := 0;
          Redis_InsecureSkipVerify := false |} |}.

(** A clone is the same configuration; no text is taken for a number. *)
Definition cloneConfig (c : Config) : Config := c.
Definition strconv_ParseFloat (s : string) : option Z := None.
Definition int_of_float64 (x : Z) : Z := x.
End SampleSystem.


(** * Properties *)

(** ** The loops that build a slice with [append] *)

Lemma foldl_append_filter {A : Type} (keep : A -> bool) (l acc : list A) :
  foldl (fun out x => if keep x then out ++ [x] else out) acc l
  = acc ++ List.filter keep l.
Proof.
  revert acc. induction l as [|x l IH]; intros acc; simpl.
  - by rewrite app_nil_r.
  - rewrite IH. destruct (keep x); [|done].
    by rewrite <- app_assoc.
Qed.

Lemma foldl_append_map {A B : Type} (f : A -> B) (l : list A) (acc : list B) :
  foldl (fun out x => out ++ [f x]) acc l = acc ++ List.map f l.
Proof.
  revert acc. induction l as [|x l IH]; intros acc; simpl.
  - by rewrite app_nil_r.
  - rewrite IH. by rewrite <- app_assoc.
Qed.

Lemma filter_sublist {A : Type} (keep : A -> bool) (l : list A) :
  sublist (List.filter keep l) l.
Proof.
  induction l as [|x l IH]; simpl; [constructor|].
  destruct (keep x); by constructor.
Qed.

Lemma elem_of_List_filter {A : Type} (keep : A -> bool) (l : list A) (x : A) :
  x ∈ List.filter keep l <-> x ∈ l /\ keep x = true.
Proof.
  rewrite !list_elem_of_In. apply filter_In.
Qed.

(** ** matchesLabels *)

Lemma matchesLabels_range_spec (alertLabels : gmap string string)
    (entries : list (string * string)) :
  matchesLabels_range alertLabels entries = true <->
  forall key value, (key, value) ∈ entries -> alertLabels !! key = Some value.
Proof.
  induction entries as [|[k v] rest IH]; simpl.
  - split; [|done]. intros _ key value Hin. by apply elem_of_nil in Hin.
  - destruct (alertLabels !! k) as [av|] eqn:Hk.
    + destruct (bool_decide_reflect (av = v)) as [->|Hne]; simpl.
      * rewrite IH. split.
        -- intros H key value Hin. apply elem_of_cons in Hin as [Heq|Hin].
           ++ by inversion Heq; subst.
           ++ by apply H.
        -- intros H key value Hin. apply H. by right.
      * split; [done|]. intros H.
        specialize (H k v (list_elem_of_here _ _)). congruence.
    + split; [done|]. intros H.
      specialize (H k v (list_elem_of_here _ _)). congruence.
Qed.

(** The verdict does not depend on the order in which the map is visited. *)
Lemma matchesLabels_range_Permutation (alertLabels : gmap string string)
    (entries entries' : list (string * string)) :
  Permutation entries entries' ->
  matchesLabels_range alertLabels entries
  = matchesLabels_range alertLabels entries'.
Proof.
  intros Hperm. apply eq_true_iff_eq. rewrite !matchesLabels_range_spec.
  split; intros H key value Hin; apply H.
  - by rewrite Hperm.
  - by rewrite <- Hperm.
Qed.

Lemma matchesLabels_spec (alertLabels matchLabels : gmap string string) :
  matchesLabels alertLabels matchLabels = true <->
  forall key value,
    matchLabels !! key = Some value -> alertLabels !! key = Some value.
Proof.
  unfold matchesLabels. rewrite matchesLabels_range_spec.
  split; intros H key value Hin; apply H.
  - by apply elem_of_map_to_list.
  - by apply elem_of_map_to_list in Hin.
Qed.

Lemma matchesLabels_subseteq (alertLabels matchLabels : gmap string string) :
  matchesLabels alertLabels matchLabels
  = bool_decide (matchLabels ⊆ alertLabels).
Proof.
  apply eq_true_iff_eq. rewrite matchesLabels_spec, bool_decide_eq_true.
  by rewrite map_subseteq_spec.
Qed.

Section FilterProperties.
Context {Time : Type}.
Implicit Types (alerts : list (AlertmanagerAlert Time)).
Implicit Types (alert : AlertmanagerAlert Time).
Implicit Types (P : gmap string string).

Lemma FilterAlertsByLabels_filter alerts P :
  FilterAlertsByLabels alerts P
  = List.filter (fun alert => matchesLabels (Labels alert) P) alerts.
Proof.
  unfold FilterAlertsByLabels.
  destruct (Nat.eqb_spec (size P) 0) as [Hsize|Hsize].
  - apply map_size_empty_iff in Hsize. subst P.
    symmetry. apply forallb_filter_id, forallb_forall.
    intros alert _. by apply matchesLabels_spec.
  - by rewrite foldl_append_filter.
Qed.

Lemma elem_of_FilterAlertsByLabels alerts P alert :
  alert ∈ FilterAlertsByLabels alerts P <->
  alert ∈ alerts /\
  forall key value, P !! key = Some value -> Labels alert !! key = Some value.
Proof.
  rewrite FilterAlertsByLabels_filter, elem_of_List_filter.
  by rewrite matchesLabels_spec.
Qed.

(** C2: for every alert sequence and predicate, the filtered sequence is
    an order-preserving subsequence of the input, it keeps exactly the
    occurrences whose labels carry every key of the predicate with the
    same value, and so a missing key or a different value excludes an
    alert. *)
Theorem C2_filter_conjunctive_exact_match alerts P :
  sublist (FilterAlertsByLabels alerts P) alerts /\
  FilterAlertsByLabels alerts P
  = List.filter (fun alert => bool_decide (P ⊆ Labels alert)) alerts /\
  (forall alert,
      alert ∈ FilterAlertsByLabels alerts P <->
      alert ∈ alerts /\
      forall key value,
        P !! key = Some value -> Labels alert !! key = Some value) /\
  (forall alert key value,
      P !! key = Some value ->
      Labels alert !! key <> Some value ->
      alert ∉ FilterAlertsByLabels alerts P).
Proof.
  split; [|split; [|split]].
  - rewrite FilterAlertsByLabels_filter. apply filter_sublist.
  - rewrite FilterAlertsByLabels_filter.
    apply filter_ext. intros alert. apply matchesLabels_subseteq.
  - apply elem_of_FilterAlertsByLabels.
  - intros alert key value HP Hne Hin.
    apply elem_of_FilterAlertsByLabels in Hin as [_ Hall].
    by apply Hne, Hall.
Qed.

(** C8: the empty predicate is the identity filter. *)
Theorem C8_filter_empty_predicate_identity alerts :
  FilterAlertsByLabels alerts ∅ = alerts.
Proof.
  unfold FilterAlertsByLabels. by rewrite map_size_empty.
Qed.
End FilterProperties.

(** ** ParseSimpleSchedule *)

Lemma append_String (c : ascii) (s t : string) :
  String c s +:+ t = String c (s +:+ t).
Proof. reflexivity. Qed.

Lemma append_empty (t : string) : "" +:+ t = t.
Proof. reflexivity. Qed.

Lemma strings_Split_length (s : string) (sep : ascii) :
  length (strings_Split s sep) = S (countByte sep s).
Proof.
  induction s as [|c rest IH]; simpl; [done|].
  destruct (decide (c = sep)); simpl; [by rewrite IH|].
  destruct (strings_Split rest sep); simpl in *; [done|lia].
Qed.

Lemma strings_Split_no_sep (s : string) (sep : ascii) :
  countByte sep s = 0 -> strings_Split s sep = [s].
Proof.
  induction s as [|c rest IH]; simpl; [done|].
  destruct (decide (c = sep)); simpl; [done|].
  intros Hcount. by rewrite IH.
Qed.

Lemma strings_Split_two (h m : string) (sep : ascii) :
  countByte sep h = 0 -> countByte sep m = 0 ->
  strings_Split (h +:+ String sep m) sep = [h; m].
Proof.
  intros Hh Hm. induction h as [|c rest IH].
  - rewrite append_empty. simpl.
    destruct (decide (sep = sep)); [|done].
    by rewrite strings_Split_no_sep.
  - rewrite append_String. simpl in *.
    destruct (decide (c = sep)); [done|]. by rewrite IH.
Qed.

Lemma countByte_one_split (s : string) (sep : ascii) :
  countByte sep s = 1 ->
  exists h m,
    s = h +:+ String sep m /\ countByte sep h = 0 /\ countByte sep m = 0.
Proof.
  induction s as [|c rest IH]; simpl; [done|].
  destruct (decide (c = sep)) as [->|Hne]; simpl; intros Hcount.
  - exists "", rest. repeat split. lia.
  - destruct (IH Hcount) as (h & m & -> & Hh & Hm).
    exists (String c h), m. simpl. repeat split; [|done].
    by destruct (decide (c = sep)).
Qed.

Lemma countByte_app (c : ascii) (s t : string) :
  countByte c (s +:+ t) = countByte c s + countByte c t.
Proof.
  induction s as [|d rest IH]; [done|].
  rewrite append_String. simpl. rewrite IH. lia.
Qed.

Lemma strings_TrimLeft_zero (s : string) :
  exists n : nat,
    s = repeatByte "0"%char n +:+ strings_TrimLeft s "0" /\
    ~ startsWith "0"%char (strings_TrimLeft s "0").
Proof.
  induction s as [|c rest IH]; simpl.
  - exists 0. by split; [|intros []].
  - destruct (decide (c = "0"%char)) as [->|Hne].
    + destruct IH as (n & Heq & Hstart).
      exists (S n). simpl. rewrite append_String. by rewrite <- Heq.
    + exists 0. by split.
Qed.

Lemma strippedField_TrimLeft (field : string) :
  strippedField field
    (if decide (strings_TrimLeft field "0" = "")
     then "0" else strings_TrimLeft field "0").
Proof.
  destruct (strings_TrimLeft_zero field) as (n & Heq & Hstart).
  by exists n, (strings_TrimLeft field "0").
Qed.

(** A field has one stripped form only. *)
Lemma strippedField_functional (field out out' : string) :
  strippedField field out -> strippedField field out' -> out = out'.
Proof.
  intros (n & tail & -> & Hstart & ->) (n' & tail' & Heq & Hstart' & ->).
  assert (tail = tail') as ->; [|done].
  revert n' Heq.
  induction n as [|n IH]; intros [|n'] Heq; simpl in Heq;
    rewrite ?append_empty, ?append_String in Heq.
  - done.
  - subst tail. by destruct Hstart.
  - subst tail'. by destruct Hstart'.
  - injection Heq as Heq. by eapply IH.
Qed.

(** C5: the four sample conversions of the helper. *)
Theorem C5_ParseSimpleSchedule_examples :
  ParseSimpleSchedule "09:00" = Ok "0 9 * * *" /\
  ParseSimpleSchedule "09:05" = Ok "5 9 * * *" /\
  ParseSimpleSchedule "9:0" = Ok "0 9 * * *" /\
  ParseSimpleSchedule "900" = Err "invalid time format, expected HH:MM".
Proof.
  repeat split; reflexivity.
Qed.

(** C10: ParseSimpleSchedule fails exactly when its input does not split on
    ":" into two parts, that is, when it does not hold exactly one colon;
    every input with exactly one colon is [h:m] for colon-free [h] and [m],
    and on it the function returns the stripped [m], a space, the stripped
    [h] and " * * *", whatever bytes the fields hold: "ab:cd" and "99:99"
    are accepted. *)
Theorem C10_ParseSimpleSchedule_shape_only :
  (forall s, is_Err (ParseSimpleSchedule s) <->
             length (strings_Split s ":"%char) <> 2) /\
  (forall s, length (strings_Split s ":"%char) = 2 <->
             countByte ":"%char s = 1) /\
  (forall s, countByte ":"%char s = 1 ->
     exists h m hour minute,
       s = h +:+ ":" +:+ m /\
       countByte ":"%char h = 0 /\ countByte ":"%char m = 0 /\
       strippedField h hour /\ strippedField m minute /\
       ParseSimpleSchedule s = Ok (minute +:+ " " +:+ hour +:+ " * * *")) /\
  (forall h m, countByte ":"%char (h +:+ ":" +:+ m) = 1 <->
               countByte ":"%char h = 0 /\ countByte ":"%char m = 0) /\
  ParseSimpleSchedule "ab:cd" = Ok "cd ab * * *" /\
  ParseSimpleSchedule "99:99" = Ok "99 99 * * *".
Proof.
  split; [|split; [|split; [|split; [|split; reflexivity]]]].
  - intros s. unfold ParseSimpleSchedule.
    destruct (Nat.eqb_spec (length (strings_Split s ":"%char)) 2) as [Heq|Hne];
      simpl; [|done].
    split; [done|]. intros Hne. by destruct Hne.
  - intros s. rewrite strings_Split_length. lia.
  - intros s Hone.
    destruct (countByte_one_split s ":"%char Hone) as (h & m & -> & Hh & Hm).
    exists h, m. eexists _, _.
    split; [done|]. split; [done|]. split; [done|].
    split; [apply strippedField_TrimLeft|].
    split; [apply strippedField_TrimLeft|].
    unfold ParseSimpleSchedule.
    change (":" +:+ m) with (String ":"%char m).
    by rewrite (strings_Split_two h m ":"%char Hh Hm).
  - intros h m. rewrite countByte_app.
    change (":" +:+ m) with (String ":"%char m). simpl.
    destruct (decide (":"%char = ":"%char)); [lia|done].
Qed.

(** ** The payload, the parameters and the firing *)

Section SchedulerProperties.
Context {Time : Type}.
Variable Format_RFC3339 : Time -> string.
Variable Unix : Time -> Z.
Context {Cron : Type}.
Variable AddFunc : Cron -> string -> JobFunc Time -> Cron * result EntryID.

Implicit Types (alerts : list (AlertmanagerAlert Time)).
Implicit Types (alert : AlertmanagerAlert Time).
Implicit Types (job : ScheduledJob) (w : World Time) (now : Time).

Lemma ConvertToIncidentPayload_cons now alert alerts :
  ConvertToIncidentPayload Format_RFC3339 Unix now (alert :: alerts)
  = Some {[ "receiver" := VString "scheduled-alert";
            "status" := VString "firing";
            "alerts" :=
              VRecords (List.map (alertPayload Format_RFC3339)
                          (alert :: alerts));
            "commonLabels" := VLabels (Labels alert);
            "commonAnnotations" := VLabels (Annotations alert);
            "externalURL" := VString "";
            "groupKey" := VString ("scheduled-" +:+ pretty (Unix now)) ]}.
Proof.
  unfold ConvertToIncidentPayload.
  by rewrite foldl_append_map.
Qed.

Lemma alertPayload_status alert :
  alertPayload Format_RFC3339 alert !! "status"
  = Some (VString (State (Status alert))).
Proof. unfold alertPayload. by simplify_map_eq. Qed.

Lemma GetFiringAlerts_active (c : AlertmanagerClient) w alerts alert :
  GetFiringAlerts c w = Ok alerts ->
  alert ∈ alerts -> State (Status alert) = "active".
Proof.
  unfold GetFiringAlerts. intros Hfetch Hin.
  repeat case_match; try discriminate.
  all: injection Hfetch as <-; rewrite foldl_append_filter in Hin.
  all: apply elem_of_List_filter in Hin as [_ Hactive].
  all: by apply bool_decide_eq_true in Hactive.
Qed.

(** C3: on a non-empty sequence the payload exists, its top-level status
    is "firing", and its common labels and annotations are those of the
    first alert. *)
Theorem C3_payload_firing_and_common_from_first now alerts :
  alerts <> [] ->
  exists payload first,
    ConvertToIncidentPayload Format_RFC3339 Unix now alerts = Some payload /\
    head alerts = Some first /\
    payload !! "status" = Some (VString "firing") /\
    payload !! "commonLabels" = Some (VLabels (Labels first)) /\
    payload !! "commonAnnotations" = Some (VLabels (Annotations first)).
Proof.
  intros Hne. destruct alerts as [|first rest]; [done|].
  eexists _, first. split; [apply ConvertToIncidentPayload_cons|].
  split; [done|]. by simplify_map_eq.
Qed.

(** C9: in the payload that [ConvertToIncidentPayload] builds from any
    sequence of alerts, whatever their backend states, the top-level status
    is "firing" and the record at each position has for status the backend
    state of the alert at that position, copied as it is.  For the alerts
    that [GetFiringAlerts] returned, which are those a firing filters and
    converts, that state is "active": the status of every record of a
    firing is "active" and so differs from the top-level status. *)
Theorem C9_record_status_is_backend_state :
  (forall now alerts (payload : gmap string Value),
      ConvertToIncidentPayload Format_RFC3339 Unix now alerts = Some payload ->
      payload !! "status" = Some (VString "firing") /\
      exists records,
        payload !! "alerts" = Some (VRecords records) /\
        length records = length alerts /\
        forall (i : nat) alert,
          alerts !! i = Some alert ->
          exists record,
            records !! i = Some record /\
            record !! "status" = Some (VString (State (Status alert))) /\
            (State (Status alert) <> "firing" ->
             record !! "status" <> payload !! "status")) /\
  (forall (c : AlertmanagerClient) w alerts (P : gmap string string) now
          (payload : gmap string Value),
      GetFiringAlerts c w = Ok alerts ->
      ConvertToIncidentPayload Format_RFC3339 Unix now
        (FilterAlertsByLabels alerts P) = Some payload ->
      payload !! "status" = Some (VString "firing") /\
      payload !! "alerts"
      = Some (VRecords (List.map (alertPayload Format_RFC3339)
                          (FilterAlertsByLabels alerts P))) /\
      forall alert,
        alert ∈ FilterAlertsByLabels alerts P ->
        alertPayload Format_RFC3339 alert !! "status"
        = Some (VString (State (Status alert))) /\
        alertPayload Format_RFC3339 alert !! "status"
        = Some (VString "active") /\
        alertPayload Format_RFC3339 alert !! "status"
        <> payload !! "status").
Proof.
  split.
  - intros now alerts payload Hbuild.
    destruct alerts as [|first rest]; [done|].
    rewrite ConvertToIncidentPayload_cons in Hbuild. injection Hbuild as <-.
    split; [by simplify_map_eq|].
    exists (List.map (alertPayload Format_RFC3339) (first :: rest)).
    split; [by simplify_map_eq|].
    split; [apply List.length_map|].
    intros i alert Hi. exists (alertPayload Format_RFC3339 alert).
    split.
    { change (List.map ?f ?l) with (f <$> l).
      by rewrite list_lookup_fmap, Hi. }
    rewrite alertPayload_status. split; [done|].
    intros Hstate. simplify_map_eq. congruence.
  - intros c w alerts P now payload Hfetch Hbuild.
    destruct (FilterAlertsByLabels alerts P) as [|first rest] eqn:Hmatched;
      [done|].
    rewrite ConvertToIncidentPayload_cons in Hbuild. injection Hbuild as <-.
    split; [by simplify_map_eq|]. split; [by simplify_map_eq|].
    intros alert Hin. rewrite alertPayload_status.
    assert (State (Status alert) = "active") as ->.
    { eapply GetFiringAlerts_active; [exact Hfetch|].
      rewrite <- Hmatched in Hin.
      by apply elem_of_FilterAlertsByLabels in Hin as [Hin _]. }
    split; [done|]. split; [done|]. by simplify_map_eq.
Qed.

(** C7: nothing is built from the empty sequence, and a firing whose
    filtered sequence is empty logs its four lines and stops: no payload,
    no call of the incident service. *)
Theorem C7_empty_match_no_payload_no_dispatch now job w alerts :
  GetFiringAlerts
    (NewAlertmanagerClient (URL (Alertmanager job))
       (Username (Alertmanager job)) (Password (Alertmanager job))) w
  = Ok alerts ->
  FilterAlertsByLabels alerts (MatchLabels job) = [] ->
  ConvertToIncidentPayload Format_RFC3339 Unix now [] = None /\
  ConvertToIncidentPayload Format_RFC3339 Unix now
    (FilterAlertsByLabels alerts (MatchLabels job)) = None /\
  createJobFunc Format_RFC3339 Unix job w
  = [ Log ("Running scheduled job: " +:+ Name job);
      Log ("Job '" +:+ Name job +:+ "': Fetched " +:+ pretty (length alerts)
           +:+ " firing alerts from Alertmanager");
      Log ("Job '" +:+ Name job +:+ "': " +:+ pretty 0%nat
           +:+ " alerts matched label filters");
      Log ("Job '" +:+ Name job
           +:+ "': No alerts matched, skipping notification") ] /\
  List.filter isCreateIncident (createJobFunc Format_RFC3339 Unix job w) = [].
Proof.
  intros Hfetch Hempty.
  assert (Htrace : createJobFunc Format_RFC3339 Unix job w
    = [ Log ("Running scheduled job: " +:+ Name job);
        Log ("Job '" +:+ Name job +:+ "': Fetched " +:+ pretty (length alerts)
             +:+ " firing alerts from Alertmanager");
        Log ("Job '" +:+ Name job +:+ "': " +:+ pretty 0%nat
             +:+ " alerts matched label filters");
        Log ("Job '" +:+ Name job
             +:+ "': No alerts matched, skipping notification") ]).
  { unfold createJobFunc. by rewrite Hfetch, Hempty. }
  split; [done|]. split; [by rewrite Hempty|]. split; [exact Htrace|].
  by rewrite Htrace.
Qed.

(** C6: a firing whose fetch fails logs the failure and stops: it makes
    no call of the incident service, and the scheduler, hence the job's
    registry entry and the cron engine that holds its next run, is as it
    was.  The last two parts hold for every firing, whatever the world
    answers: a firing only adds to the output and never touches the
    scheduler. *)
Theorem C6_fetch_failure_no_dispatch_registry_intact
    (p : Process Cron) job w (err : string) :
  GetFiringAlerts
    (NewAlertmanagerClient (URL (Alertmanager job))
       (Username (Alertmanager job)) (Password (Alertmanager job))) w
  = Err err ->
  createJobFunc Format_RFC3339 Unix job w
  = [ Log ("Running scheduled job: " +:+ Name job);
      Log ("Error fetching alerts for job '" +:+ Name job
           +:+ "': " +:+ err) ] /\
  List.filter isCreateIncident (createJobFunc Format_RFC3339 Unix job w) = [] /\
  output (runJob Format_RFC3339 Unix p job w)
  = output p ++ createJobFunc Format_RFC3339 Unix job w /\
  jobs (scheduler (runJob Format_RFC3339 Unix p job w)) !! Name job
  = jobs (scheduler p) !! Name job /\
  cron (scheduler (runJob Format_RFC3339 Unix p job w)) = cron (scheduler p) /\
  (forall w' : World Time,
      scheduler (runJob Format_RFC3339 Unix p job w') = scheduler p) /\
  (forall w' : World Time, exists events,
      output (runJob Format_RFC3339 Unix p job w') = output p ++ events).
Proof.
  intros Hfetch.
  assert (Htrace : createJobFunc Format_RFC3339 Unix job w
    = [ Log ("Running scheduled job: " +:+ Name job);
        Log ("Error fetching alerts for job '" +:+ Name job
             +:+ "': " +:+ err) ]).
  { unfold createJobFunc. by rewrite Hfetch. }
  split; [exact Htrace|]. split; [by rewrite Htrace|].
  repeat split. intros w'. by eexists.
Qed.

Lemma CreateIncident_in_createJobFunc job w source
    (payload : gmap string Value) (params : gmap string string) :
  CreateIncident source payload params
    ∈ createJobFunc Format_RFC3339 Unix job w ->
  source = "scheduled" /\ params = buildParamsFromJob job.
Proof.
  unfold createJobFunc. intros Hin.
  repeat case_match;
    rewrite ?elem_of_app, ?elem_of_cons, ?elem_of_nil in Hin;
    destruct_or?; simplify_eq; done.
Qed.

(** C4: the parameter map always holds oncall_enable, and its value is
    "false" for every job; each of the five channel keys is present
    exactly when the job's override is non-empty, with the override as
    its value; there is no other key; and this map is the one every call
    of the incident service receives, under the source tag "scheduled". *)
Theorem C4_params_oncall_false_and_channel_overrides job :
  let params := buildParamsFromJob job in
  let override (field : string) :=
    if bool_decide (field = "") then None else Some field in
  params !! "oncall_enable" = Some "false" /\
  params !! "slack_channel_id" = override (SlackChannelID (Channels job)) /\
  params !! "telegram_chat_id" = override (TelegramChatID (Channels job)) /\
  params !! "lark_other_webhook_url"
  = override (LarkWebhookKey (Channels job)) /\
  params !! "msteams_other_power_url"
  = override (MSTeamsPowerURLKey (Channels job)) /\
  params !! "email_to" = override (EmailTo (Channels job)) /\
  dom params ⊆ ({[ "oncall_enable"; "slack_channel_id"; "telegram_chat_id";
                   "lark_other_webhook_url"; "msteams_other_power_url";
                   "email_to" ]} : gset string) /\
  forall w source payload params',
    CreateIncident source payload params'
      ∈ createJobFunc Format_RFC3339 Unix job w ->
    source = "scheduled" /\ params' = params.
Proof.
  intros params override. subst params override.
  split; [|split; [|split; [|split; [|split; [|split; [|split]]]]]].
  8: { intros w source payload params' Hin.
       exact (CreateIncident_in_createJobFunc job w source payload params'
                Hin). }
  all: unfold buildParamsFromJob.
  all: destruct (Channels job) as [slack telegram lark teams email]; simpl.
  all: repeat case_bool_decide; simpl.
  all: try (by simplify_map_eq).
  all: rewrite ?dom_insert_L, dom_empty_L.
  all: intros key.
  all: rewrite !elem_of_union, !elem_of_singleton, ?elem_of_empty; tauto.
Qed.

(** C1: registration hands the schedule string of an enabled job with a
    non-empty schedule to the cron engine as it is, whatever its shape:
    it succeeds exactly when the engine accepts that string, and then
    records the entry id under the job's name; when the engine rejects
    the string the registry is left as it was and the engine's error is
    returned behind "invalid cron expression". *)
Theorem C1_registration_hands_schedule_unchanged
    (s : Scheduler Cron) job (c : Cron) (answer : result EntryID) :
  Enable job = true ->
  Schedule job <> "" ->
  AddFunc (cron s) (Schedule job) (createJobFunc Format_RFC3339 Unix job)
  = (c, answer) ->
  ((addJob Format_RFC3339 Unix AddFunc s job).2 = None <->
   exists entryID, answer = Ok entryID) /\
  match answer with
  | Ok entryID =>
      addJob Format_RFC3339 Unix AddFunc s job
      = ({| cron := c; config := config s;
            jobs := <[Name job := entryID]> (jobs s) |},
         [Log ("Added scheduled job '" +:+ Name job
               +:+ "' with schedule '" +:+ Schedule job +:+ "'")],
         None) /\
      jobs (addJob Format_RFC3339 Unix AddFunc s job).1.1 !! Name job
      = Some entryID
  | Err msg =>
      addJob Format_RFC3339 Unix AddFunc s job
      = ({| cron := c; config := config s; jobs := jobs s |}, [],
         Some ("invalid cron expression '" +:+ Schedule job
               +:+ "': " +:+ msg))
  end.
Proof.
  intros Henabled Hschedule Hengine. unfold addJob.
  rewrite Henabled, Hengine. simpl.
  rewrite bool_decide_eq_false_2 by done.
  destruct answer as [entryID|msg]; simpl.
  - split; [split; [by eexists|done]|].
    split; [done|]. by rewrite lookup_insert_eq.
  - split; [|done]. split; [done|]. by intros [entryID ?].
Qed.
End SchedulerProperties.

(** ** The theorems at sample data *)

(** Two alerts: the payload is "firing" and takes its common labels and
    annotations from the first. *)
Lemma C3_witness :
  exists payload first,
    ConvertToIncidentPayload Sample.Format_RFC3339 Sample.Unix Sample.nine
      [Sample.diskProd; Sample.cpuProd] = Some payload /\
    head [Sample.diskProd; Sample.cpuProd] = Some first /\
    payload !! "status" = Some (VString "firing") /\
    payload !! "commonLabels" = Some (VLabels (Labels first)) /\
    payload !! "commonAnnotations" = Some (VLabels (Annotations first)).
Proof.
  apply (C3_payload_firing_and_common_from_first
           Sample.Format_RFC3339 Sample.Unix Sample.nine
           [Sample.diskProd; Sample.cpuProd]).
  discriminate.
Defined.

(** An active and a suppressed alert converted as they are: the second
    record says "suppressed".  Then a backend that returns four alerts, one
    of them suppressed, and a job that keeps those of env=prod. *)
Lemma C9_witness :
  let mixed := [Sample.diskProd; Sample.suppressed] in
  let converted :=
    default ∅ (ConvertToIncidentPayload Sample.Format_RFC3339 Sample.Unix
                 Sample.nine mixed) in
  let fetched := [Sample.diskProd; Sample.diskDev; Sample.cpuProd] in
  let P : gmap string string := {[ "env" := "prod" ]} in
  let payload :=
    default ∅ (ConvertToIncidentPayload Sample.Format_RFC3339 Sample.Unix
                 Sample.nine (FilterAlertsByLabels fetched P)) in
  (exists records record,
      converted !! "alerts" = Some (VRecords records) /\
      records !! 1%nat = Some record /\
      record !! "status" = Some (VString "suppressed") /\
      record !! "status" <> converted !! "status") /\
  payload !! "status" = Some (VString "firing") /\
  payload !! "alerts"
  = Some (VRecords (List.map (alertPayload Sample.Format_RFC3339)
                      (FilterAlertsByLabels fetched P))) /\
  forall alert,
    alert ∈ FilterAlertsByLabels fetched P ->
    alertPayload Sample.Format_RFC3339 alert !! "status"
    = Some (VString (State (Status alert))) /\
    alertPayload Sample.Format_RFC3339 alert !! "status"
    = Some (VString "active") /\
    alertPayload Sample.Format_RFC3339 alert !! "status" <> payload !! "status".
Proof.
  intros mixed converted fetched P payload.
  destruct (C9_record_status_is_backend_state
              Sample.Format_RFC3339 Sample.Unix) as [Hany Hfetched].
  split.
  - destruct (Hany Sample.nine mixed converted)
      as (_ & records & Halerts & _ & Hrecords); [reflexivity|].
    destruct (Hrecords 1%nat Sample.suppressed)
      as (record & Hrecord & Hstatus & Hdiffers); [reflexivity|].
    exists records, record. split; [exact Halerts|]. split; [exact Hrecord|].
    split; [exact Hstatus|]. apply Hdiffers. discriminate.
  - apply (Hfetched
             (NewAlertmanagerClient "http://alertmanager:9093" "" "")
             (Sample.world [Sample.diskProd; Sample.suppressed;
                            Sample.diskDev; Sample.cpuProd])
             fetched P Sample.nine payload).
    + vm_compute. reflexivity.
    + vm_compute. reflexivity.
Defined.

(** No fetched alert carries env=staging. *)
Lemma C7_witness :
  let job := Sample.job "0 9 * * *" {[ "env" := "staging" ]} in
  let w := Sample.world [Sample.diskProd; Sample.diskDev] in
  ConvertToIncidentPayload Sample.Format_RFC3339 Sample.Unix Sample.nine []
  = None /\
  ConvertToIncidentPayload Sample.Format_RFC3339 Sample.Unix Sample.nine
    (FilterAlertsByLabels [Sample.diskProd; Sample.diskDev] (MatchLabels job))
  = None /\
  createJobFunc Sample.Format_RFC3339 Sample.Unix job w
  = [ Log ("Running scheduled job: " +:+ Name job);
      Log ("Job '" +:+ Name job +:+ "': Fetched " +:+ pretty 2%nat
           +:+ " firing alerts from Alertmanager");
      Log ("Job '" +:+ Name job +:+ "': " +:+ pretty 0%nat
           +:+ " alerts matched label filters");
      Log ("Job '" +:+ Name job
           +:+ "': No alerts matched, skipping notification") ] /\
  List.filter isCreateIncident
    (createJobFunc Sample.Format_RFC3339 Sample.Unix job w) = [].
Proof.
  intros job w.
  apply (C7_empty_match_no_payload_no_dispatch Sample.Format_RFC3339 Sample.Unix
           Sample.nine job w [Sample.diskProd; Sample.diskDev]).
  - vm_compute. reflexivity.
  - vm_compute. reflexivity.
Defined.

(** A registered job fires while its backend refuses the connection. *)
Lemma C6_witness :
  let job := Sample.job "0 9 * * *" {[ "env" := "prod" ]} in
  let s :=
    (addJob Sample.Format_RFC3339 Sample.Unix Sample.AddFunc
       Sample.emptyScheduler job).1.1 in
  let p := {| scheduler := s; output := [] |} in
  let after :=
    runJob Sample.Format_RFC3339 Sample.Unix p job Sample.unreachable in
  jobs s !! Name job = Some 1%Z /\
  createJobFunc Sample.Format_RFC3339 Sample.Unix job Sample.unreachable
  = [ Log "Running scheduled job: morning-disk-report";
      Log ("Error fetching alerts for job 'morning-disk-report': "
           +:+ "failed to fetch alerts: dial tcp: connection refused") ] /\
  List.filter isCreateIncident
    (createJobFunc Sample.Format_RFC3339 Sample.Unix job Sample.unreachable)
  = [] /\
  jobs (scheduler after) !! Name job = Some 1%Z /\
  cron (scheduler after) = cron s.
Proof.
  intros job s p after.
  destruct (C6_fetch_failure_no_dispatch_registry_intact
              Sample.Format_RFC3339 Sample.Unix p job Sample.unreachable
              "failed to fetch alerts: dial tcp: connection refused")
    as (Htrace & Hnone & _ & Hentry & Hcron & _).
  - vm_compute. reflexivity.
  - assert (Hregistered : jobs s !! Name job = Some 1%Z)
      by (vm_compute; reflexivity).
    split; [exact Hregistered|]. split; [exact Htrace|].
    split; [exact Hnone|]. split; [|exact Hcron].
    exact (eq_trans Hentry Hregistered).
Defined.

(** The sample engine accepts "09:00" as it accepts every spec, and is
    handed that very string. *)
Lemma C1_witness :
  let job := Sample.job "09:00" ∅ in
  let registered :=
    addJob Sample.Format_RFC3339 Sample.Unix Sample.AddFunc
      Sample.emptyScheduler job in
  (registered.2 = None <-> exists entryID : EntryID, Ok 1%Z = Ok entryID) /\
  registered
  = ({| cron := [(1%Z, "09:00")]; config := config Sample.emptyScheduler;
        jobs := <[Name job := 1%Z]> (jobs Sample.emptyScheduler) |},
     [Log ("Added scheduled job '" +:+ Name job
           +:+ "' with schedule '" +:+ Schedule job +:+ "'")],
     None) /\
  jobs registered.1.1 !! Name job = Some 1%Z.
Proof.
  intros job registered.
  apply (C1_registration_hands_schedule_unchanged
           Sample.Format_RFC3339 Sample.Unix Sample.AddFunc
           Sample.emptyScheduler job [(1%Z, "09:00")] (Ok 1%Z)).
  - reflexivity.
  - discriminate.
  - reflexivity.
Defined.

(** ** Where the code departs from the specification *)

Lemma buildParamsFromJob_oncall_enable (job : ScheduledJob) :
  buildParamsFromJob job !! "oncall_enable" = Some "false".
Proof.
  unfold buildParamsFromJob.
  repeat case_bool_decide; simpl; by simplify_map_eq.
Qed.

(** Registration does not translate "HH:MM": for the enabled job scheduled
    at "09:00" the cron engine is handed "09:00" itself, not the pattern
    "0 9 * * *" that [ParseSimpleSchedule] makes of it. *)
Lemma C1_counterexample :
  let job := Sample.job "09:00" ∅ in
  let registered :=
    addJob Sample.Format_RFC3339 Sample.Unix Sample.AddFunc
      Sample.emptyScheduler job in
  Enable job = true /\
  ParseSimpleSchedule (Schedule job) = Ok "0 9 * * *" /\
  cron registered.1.1 = [(1%Z, "09:00")] /\
  ~ (exists spec,
       ParseSimpleSchedule (Schedule job) = Ok spec /\
       cron registered.1.1 = [(1%Z, spec)]).
Proof.
  intros job registered.
  split; [reflexivity|]. split; [reflexivity|]. split; [reflexivity|].
  intros (spec & Hparse & Hcron).
  assert (spec = "0 9 * * *") as -> by (vm_compute in Hparse; congruence).
  vm_compute in Hcron. discriminate.
Qed.

(** No job overrides oncall_enable: there is no job whose parameter map
    holds anything but "false" under that key. *)
Lemma C4_counterexample :
  ~ (exists job : ScheduledJob,
       buildParamsFromJob job !! "oncall_enable" <> Some "false").
Proof.
  intros [job Hoverride]. apply Hoverride, buildParamsFromJob_oncall_enable.
Qed.

(** * Further properties of the code *)

(** ** The algebra of the label filter *)

Lemma List_filter_filter {A : Type} (f g : A -> bool) (l : list A) :
  List.filter f (List.filter g l) = List.filter (fun x => g x && f x) l.
Proof.
  induction l as [|x l IH]; simpl; [done|].
  destruct (g x); simpl; [|done].
  destruct (f x); by rewrite IH.
Qed.

Lemma matchesLabels_mono (labels P Q : gmap string string) :
  P ⊆ Q -> matchesLabels labels Q = true -> matchesLabels labels P = true.
Proof.
  rewrite !matchesLabels_spec. intros Hsub HQ key value HP.
  apply HQ. by eapply lookup_weaken.
Qed.

Section FilterAlgebra.
Context {Time : Type}.
Implicit Types (alerts : list (AlertmanagerAlert Time)).
Implicit Types (alert : AlertmanagerAlert Time).
Implicit Types (P Q : gmap string string).

(** X1: filtering twice by the same predicate is filtering once. *)
Theorem X1_filter_idempotent alerts P :
  FilterAlertsByLabels (FilterAlertsByLabels alerts P) P
  = FilterAlertsByLabels alerts P.
Proof.
  rewrite !FilterAlertsByLabels_filter, List_filter_filter.
  apply filter_ext. intros alert. by destruct (matchesLabels _ _).
Qed.

(** X2: the filter works alert by alert: the filter of a concatenation is
    the concatenation of the filters. *)
Theorem X2_filter_app alerts alerts' P :
  FilterAlertsByLabels (alerts ++ alerts') P
  = FilterAlertsByLabels alerts P ++ FilterAlertsByLabels alerts' P.
Proof.
  rewrite !FilterAlertsByLabels_filter. apply List.filter_app.
Qed.

(** X3: a predicate with more entries keeps fewer alerts: when P is
    included in Q, filtering by Q is filtering by P and then by Q, and its
    result is a subsequence of the result for P. *)
Theorem X3_filter_antitone alerts P Q :
  P ⊆ Q ->
  FilterAlertsByLabels alerts Q
  = FilterAlertsByLabels (FilterAlertsByLabels alerts P) Q /\
  sublist (FilterAlertsByLabels alerts Q) (FilterAlertsByLabels alerts P).
Proof.
  intros Hsub.
  assert (Heq : FilterAlertsByLabels alerts Q
    = FilterAlertsByLabels (FilterAlertsByLabels alerts P) Q).
  { rewrite !FilterAlertsByLabels_filter, List_filter_filter.
    apply filter_ext. intros alert.
    destruct (matchesLabels (Labels alert) Q) eqn:HQ.
    - by rewrite (matchesLabels_mono _ P Q Hsub HQ).
    - by rewrite andb_false_r. }
  split; [exact Heq|]. rewrite Heq.
  rewrite (FilterAlertsByLabels_filter (FilterAlertsByLabels alerts P) Q).
  apply filter_sublist.
Qed.

(** X4: two filters can be applied in either order. *)
Theorem X4_filter_commute alerts P Q :
  FilterAlertsByLabels (FilterAlertsByLabels alerts P) Q
  = FilterAlertsByLabels (FilterAlertsByLabels alerts Q) P.
Proof.
  rewrite !FilterAlertsByLabels_filter, !List_filter_filter.
  apply filter_ext. intros alert. apply andb_comm.
Qed.

(** X5: an alert without labels passes the empty predicate only. *)
Theorem X5_unlabelled_alert_matches_only_empty_predicate alerts alert P :
  Labels alert = ∅ ->
  alert ∈ alerts ->
  (alert ∈ FilterAlertsByLabels alerts P <-> P = ∅).
Proof.
  intros Hlabels Hin. rewrite elem_of_FilterAlertsByLabels, Hlabels.
  split.
  - intros [_ Hall]. apply map_empty. intros key.
    destruct (P !! key) as [value|] eqn:HP; [|done].
    specialize (Hall key value HP). by rewrite lookup_empty in Hall.
  - intros ->. split; [done|]. intros key value HP.
    by rewrite lookup_empty in HP.
Qed.
End FilterAlgebra.

(** ** The Alertmanager client and the payload *)

Section ClientProperties.
Context {Time : Type}.
Variable Format_RFC3339 : Time -> string.
Variable Unix : Time -> Z.
Implicit Types (alerts : list (AlertmanagerAlert Time)).
Implicit Types (alert : AlertmanagerAlert Time).
Implicit Types (w : World Time) (now : Time) (c : AlertmanagerClient).

(** X6: a successful fetch went through a response of status 200 whose
    body was read to the end and decoded, the request carried the Accept
    header for JSON, and the alerts returned are the decoded alerts whose
    state is "active", in the order of the body. *)
Theorem X6_fetch_success_is_active_part_of_body c w alerts :
  GetFiringAlerts c w = Ok alerts ->
  exists req resp decoded,
    httpClient_Do w req = Ok resp /\
    Header req !! "Accept" = Some "application/json" /\
    StatusCode resp = 200%Z /\
    (Body resp).2 = None /\
    json_Unmarshal w (Body resp).1 = Ok decoded /\
    alerts = List.filter isActive decoded /\
    sublist alerts decoded.
Proof.
  unfold GetFiringAlerts. intros Hfetch.
  destruct (http_NewRequest w _ _) as [req|]; [|done].
  match type of Hfetch with
  | match httpClient_Do w ?sent with _ => _ end = _ =>
      destruct (httpClient_Do w sent) as [resp|] eqn:Hdo; [exists sent|done]
  end.
  destruct (Z.eqb_spec (StatusCode resp) 200) as [Hcode|]; [|done].
  simpl in Hfetch.
  destruct (Body resp).2 eqn:Hread; [done|].
  destruct (json_Unmarshal w _) as [decoded|] eqn:Hjson; [|done].
  injection Hfetch as <-. rewrite foldl_append_filter. simpl.
  exists resp, decoded. repeat split; try done.
  - unfold Header_Set. simpl. by rewrite lookup_insert_eq.
  - apply filter_sublist.
Qed.

(** X7: credentials are used only when both are given: a client with an
    empty user name or an empty password fetches exactly as the client
    without credentials does. *)
Theorem X7_partial_credentials_fetch_as_anonymous c w :
  username c = "" \/ password c = "" ->
  GetFiringAlerts c w
  = GetFiringAlerts (NewAlertmanagerClient (baseURL c) "" "") w.
Proof.
  intros Hpartial. unfold GetFiringAlerts, NewAlertmanagerClient. simpl.
  destruct (http_NewRequest w _ _) as [req|]; [|done].
  assert (negb (bool_decide (username c = ""))
          && negb (bool_decide (password c = "")) = false) as ->; [|done].
  destruct Hpartial as [-> | ->]; simpl; [done|].
  apply andb_false_r.
Qed.

(** X8: the payload is missing exactly for the empty sequence, and a
    payload has the seven keys of the webhook format and no other. *)
Theorem X8_payload_none_iff_empty_and_keys now alerts :
  (ConvertToIncidentPayload Format_RFC3339 Unix now alerts = None <->
   alerts = []) /\
  forall payload,
    ConvertToIncidentPayload Format_RFC3339 Unix now alerts = Some payload ->
    dom payload
    = ({[ "receiver"; "status"; "alerts"; "commonLabels";
          "commonAnnotations"; "externalURL"; "groupKey" ]} : gset string).
Proof.
  split.
  - destruct alerts; [done|]. rewrite ConvertToIncidentPayload_cons.
    split; discriminate.
  - intros payload Hbuild. destruct alerts as [|alert rest]; [done|].
    rewrite ConvertToIncidentPayload_cons in Hbuild. injection Hbuild as <-.
    rewrite !dom_insert_L, dom_singleton_L.
    apply set_eq. intros key.
    rewrite !elem_of_union, !elem_of_singleton. tauto.
Qed.

(** X9: the clock enters the payload through the group key only: built
    at two instants, the payloads agree once the group key is removed, and
    they differ when the instants differ in their Unix seconds. *)
Theorem X9_clock_only_in_group_key now now' alerts :
  delete "groupKey" <$> ConvertToIncidentPayload Format_RFC3339 Unix now alerts
  = delete "groupKey"
      <$> ConvertToIncidentPayload Format_RFC3339 Unix now' alerts /\
  (alerts <> [] ->
   Unix now <> Unix now' ->
   ConvertToIncidentPayload Format_RFC3339 Unix now alerts
   <> ConvertToIncidentPayload Format_RFC3339 Unix now' alerts).
Proof.
  destruct alerts as [|alert rest]; [by split|].
  rewrite !ConvertToIncidentPayload_cons. split.
  - simpl. by f_equal.
  - intros _ Hunix Heq. apply Hunix.
    apply (inj Some) in Heq.
    apply (f_equal (fun m : gmap string Value => m !! "groupKey")) in Heq.
    rewrite !lookup_insert_ne, !lookup_singleton_eq in Heq by done.
    assert (Hkey : "scheduled-" +:+ pretty (Unix now)
                   = "scheduled-" +:+ pretty (Unix now')) by congruence.
    by apply (inj (String.append "scheduled-")), (inj pretty) in Hkey.
Qed.

(** X10: the records of the payload follow the alerts position by
    position: there are as many records as alerts, and the record at a
    position carries the labels, annotations, formatted times, fingerprint
    and generator URL of the alert at that position, under seven keys. *)
Theorem X10_records_follow_alerts now alerts (payload : gmap string Value) :
  ConvertToIncidentPayload Format_RFC3339 Unix now alerts = Some payload ->
  exists records,
    payload !! "alerts" = Some (VRecords records) /\
    length records = length alerts /\
    forall (i : nat) alert,
      alerts !! i = Some alert ->
      exists record,
        records !! i = Some record /\
        record !! "status" = Some (VString (State (Status alert))) /\
        record !! "labels" = Some (VLabels (Labels alert)) /\
        record !! "annotations" = Some (VLabels (Annotations alert)) /\
        record !! "startsAt"
        = Some (VString (Format_RFC3339 (StartsAt alert))) /\
        record !! "endsAt" = Some (VString (Format_RFC3339 (EndsAt alert))) /\
        record !! "fingerprint" = Some (VString (Fingerprint alert)) /\
        record !! "generatorURL" = Some (VString (GeneratorURL alert)) /\
        size record = 7.
Proof.
  intros Hbuild. destruct alerts as [|first rest]; [done|].
  rewrite ConvertToIncidentPayload_cons in Hbuild. injection Hbuild as <-.
  exists (List.map (alertPayload Format_RFC3339) (first :: rest)).
  split; [by simplify_map_eq|].
  split; [apply List.length_map|].
  intros i alert Hi. exists (alertPayload Format_RFC3339 alert).
  split.
  { change (List.map ?f ?l) with (f <$> l).
    by rewrite list_lookup_fmap, Hi. }
  unfold alertPayload.
  repeat (split; [by simplify_map_eq|]).
  rewrite !map_size_insert_None by by simplify_map_eq.
  by rewrite map_size_singleton.
Qed.
End ClientProperties.

(** ** A firing and what it dispatches *)

Section FiringProperties.
Context {Time : Type}.
Variable Format_RFC3339 : Time -> string.
Variable Unix : Time -> Z.
Implicit Types (alerts : list (AlertmanagerAlert Time)).
Implicit Types (alert : AlertmanagerAlert Time).
Implicit Types (job : ScheduledJob) (w : World Time).

(** The payload a firing hands over: the built payload under the two
    entries of the schedule. *)
Lemma createJobFunc_dispatches job w alerts (built : gmap string Value) :
  GetFiringAlerts
    (NewAlertmanagerClient (URL (Alertmanager job))
       (Username (Alertmanager job)) (Password (Alertmanager job))) w
  = Ok alerts ->
  ConvertToIncidentPayload Format_RFC3339 Unix (time_Now w 0%nat)
    (FilterAlertsByLabels alerts (MatchLabels job)) = Some built ->
  List.filter isCreateIncident (createJobFunc Format_RFC3339 Unix job w)
  = [ CreateIncident "scheduled"
        (<["scheduled_time" := VString (Format_RFC3339 (time_Now w 1%nat))]>
           (<["scheduled_job" := VString (Name job)]> built))
        (buildParamsFromJob job) ].
Proof.
  intros Hfetch Hbuild. unfold createJobFunc. rewrite Hfetch.
  destruct (FilterAlertsByLabels alerts (MatchLabels job)) as [|first rest];
    [done|].
  rewrite Hbuild. simpl.
  by destruct (services_CreateIncident w _ _ _).
Qed.

Lemma createJobFunc_silent job w :
  match GetFiringAlerts
          (NewAlertmanagerClient (URL (Alertmanager job))
             (Username (Alertmanager job)) (Password (Alertmanager job))) w
  with
  | Ok alerts => FilterAlertsByLabels alerts (MatchLabels job) = []
  | Err _ => True
  end ->
  List.filter isCreateIncident (createJobFunc Format_RFC3339 Unix job w) = [].
Proof.
  unfold createJobFunc.
  destruct (GetFiringAlerts _ w) as [alerts|err]; [|done].
  by intros ->.
Qed.

(** X11: a firing calls the incident service at most once, and it calls it
    exactly when the fetch succeeded and at least one alert passed the
    filter; whether the service then fails makes no difference. *)
Theorem X11_at_most_one_dispatch_per_firing job w :
  length (List.filter isCreateIncident
            (createJobFunc Format_RFC3339 Unix job w))
  = match GetFiringAlerts
            (NewAlertmanagerClient (URL (Alertmanager job))
               (Username (Alertmanager job)) (Password (Alertmanager job))) w
    with
    | Ok alerts =>
        match FilterAlertsByLabels alerts (MatchLabels job) with
        | [] => 0
        | _ :: _ => 1
        end
    | Err _ => 0
    end.
Proof.
  destruct (GetFiringAlerts _ w) as [alerts|err] eqn:Hfetch.
  - destruct (FilterAlertsByLabels alerts (MatchLabels job))
      as [|first rest] eqn:Hmatched.
    + rewrite createJobFunc_silent; [done|]. by rewrite Hfetch.
    + erewrite createJobFunc_dispatches; [done|exact Hfetch|].
      rewrite Hmatched. apply ConvertToIncidentPayload_cons.
  - rewrite createJobFunc_silent; [done|]. by rewrite Hfetch.
Qed.

Lemma built_payload_facts (now : Time) alerts (built : gmap string Value) :
  ConvertToIncidentPayload Format_RFC3339 Unix now alerts = Some built ->
  size built = 7 /\
  built !! "scheduled_job" = None /\
  built !! "scheduled_time" = None /\
  built !! "groupKey" = Some (VString ("scheduled-" +:+ pretty (Unix now))).
Proof.
  intros Hbuild. destruct alerts as [|first rest]; [done|].
  rewrite ConvertToIncidentPayload_cons in Hbuild.
  apply (inj Some) in Hbuild as <-.
  split; [|by simplify_map_eq].
  rewrite !map_size_insert_None by by simplify_map_eq.
  by rewrite map_size_singleton.
Qed.

Lemma schedule_entries_on_top (built : gmap string Value) (name time : Value) :
  built !! "scheduled_job" = None ->
  built !! "scheduled_time" = None ->
  (forall key,
      is_Some (built !! key) ->
      <["scheduled_time" := time]> (<["scheduled_job" := name]> built) !! key
      = built !! key) /\
  size (<["scheduled_time" := time]> (<["scheduled_job" := name]> built))
  = S (S (size built)).
Proof.
  intros Hjob Htime. split.
  - intros key [value Hkey].
    rewrite !lookup_insert_ne; [done| |]; intros <-; congruence.
  - rewrite !map_size_insert_None; [done|exact Hjob|].
    by rewrite lookup_insert_ne.
Qed.

(** X12: when the fetch succeeds and some alert passes the filter, the one
    call of the incident service has the source tag "scheduled", the
    parameters of the job, and the built payload with two more entries:
    the job's name and the formatted second reading of the clock.  The
    seven built entries are kept, so the payload has nine. *)
Theorem X12_dispatched_payload_is_built_payload_with_schedule
    job w alerts :
  GetFiringAlerts
    (NewAlertmanagerClient (URL (Alertmanager job))
       (Username (Alertmanager job)) (Password (Alertmanager job))) w
  = Ok alerts ->
  FilterAlertsByLabels alerts (MatchLabels job) <> [] ->
  exists built payload,
    ConvertToIncidentPayload Format_RFC3339 Unix (time_Now w 0%nat)
      (FilterAlertsByLabels alerts (MatchLabels job)) = Some built /\
    List.filter isCreateIncident (createJobFunc Format_RFC3339 Unix job w)
    = [CreateIncident "scheduled" payload (buildParamsFromJob job)] /\
    payload !! "scheduled_job" = Some (VString (Name job)) /\
    payload !! "scheduled_time"
    = Some (VString (Format_RFC3339 (time_Now w 1%nat))) /\
    payload !! "groupKey"
    = Some (VString ("scheduled-" +:+ pretty (Unix (time_Now w 0%nat)))) /\
    (forall key, is_Some (built !! key) -> payload !! key = built !! key) /\
    size built = 7 /\
    size payload = 9.
Proof.
  intros Hfetch Hmatched.
  destruct (ConvertToIncidentPayload Format_RFC3339 Unix (time_Now w 0%nat)
              (FilterAlertsByLabels alerts (MatchLabels job)))
    as [built|] eqn:Hbuild.
  2: { destruct (FilterAlertsByLabels alerts (MatchLabels job)); [done|].
       by rewrite ConvertToIncidentPayload_cons in Hbuild. }
  destruct (built_payload_facts _ _ _ Hbuild)
    as (Hseven & Hjob & Htime & Hgroup).
  destruct (schedule_entries_on_top built (VString (Name job))
              (VString (Format_RFC3339 (time_Now w 1%nat))) Hjob Htime)
    as [Hkept Hsize].
  eexists built, _. split; [done|].
  split; [by eapply createJobFunc_dispatches|].
  split; [by simplify_map_eq|]. split; [by simplify_map_eq|].
  split; [by rewrite Hkept|].
  split; [exact Hkept|]. split; [exact Hseven|].
  by rewrite Hsize, Hseven.
Qed.

(** X13: what a firing dispatches are the fetched alerts that pass the
    job's filter, in order: every record comes from an alert that is active
    and carries every label of the job's predicate, and the common labels,
    taken from the first of them, include the predicate. *)
Theorem X13_dispatched_alerts_are_active_and_match job w alerts :
  GetFiringAlerts
    (NewAlertmanagerClient (URL (Alertmanager job))
       (Username (Alertmanager job)) (Password (Alertmanager job))) w
  = Ok alerts ->
  FilterAlertsByLabels alerts (MatchLabels job) <> [] ->
  exists payload first,
    List.filter isCreateIncident (createJobFunc Format_RFC3339 Unix job w)
    = [CreateIncident "scheduled" payload (buildParamsFromJob job)] /\
    payload !! "alerts"
    = Some (VRecords (List.map (alertPayload Format_RFC3339)
                        (FilterAlertsByLabels alerts (MatchLabels job)))) /\
    sublist (FilterAlertsByLabels alerts (MatchLabels job)) alerts /\
    (forall alert,
        alert ∈ FilterAlertsByLabels alerts (MatchLabels job) ->
        State (Status alert) = "active" /\ MatchLabels job ⊆ Labels alert) /\
    head (FilterAlertsByLabels alerts (MatchLabels job)) = Some first /\
    payload !! "commonLabels" = Some (VLabels (Labels first)) /\
    MatchLabels job ⊆ Labels first.
Proof.
  intros Hfetch Hmatched.
  assert (Hall : forall alert,
    alert ∈ FilterAlertsByLabels alerts (MatchLabels job) ->
    State (Status alert) = "active" /\ MatchLabels job ⊆ Labels alert).
  { intros alert Hin.
    apply elem_of_FilterAlertsByLabels in Hin as [Hin Hlabels].
    split; [by eapply GetFiringAlerts_active|].
    by apply map_subseteq_spec. }
  destruct (FilterAlertsByLabels alerts (MatchLabels job))
    as [|first rest] eqn:Heq; [done|].
  pose proof (ConvertToIncidentPayload_cons Format_RFC3339 Unix
                (time_Now w 0%nat) first rest) as Hbuild.
  eexists _, first. split.
  { eapply createJobFunc_dispatches; [exact Hfetch|].
    rewrite Heq. exact Hbuild. }
  split; [by simplify_map_eq|].
  split.
  { rewrite <- Heq, FilterAlertsByLabels_filter. apply filter_sublist. }
  split; [exact Hall|]. split; [done|].
  split; [by simplify_map_eq|].
  apply Hall. by left.
Qed.

(** X14: what is dispatched does not depend on how the incident service
    answers: with any other service in the same world the firing makes the
    same calls. *)
Theorem X14_dispatch_independent_of_service_answer job w
    (service : string -> gmap string Value -> gmap string string
               -> option string) :
  List.filter isCreateIncident
    (createJobFunc Format_RFC3339 Unix job
       {| http_NewRequest := http_NewRequest w;
          httpClient_Do := httpClient_Do w;
          json_Unmarshal := json_Unmarshal w;
          time_Now := time_Now w;
          services_CreateIncident := service |})
  = List.filter isCreateIncident (createJobFunc Format_RFC3339 Unix job w).
Proof.
  unfold createJobFunc.
  change (GetFiringAlerts ?c {| http_NewRequest := http_NewRequest w;
            httpClient_Do := httpClient_Do w;
            json_Unmarshal := json_Unmarshal w;
            time_Now := time_Now w;
            services_CreateIncident := service |})
    with (GetFiringAlerts c w).
  destruct (GetFiringAlerts _ w) as [alerts|err]; [|done].
  destruct (FilterAlertsByLabels alerts (MatchLabels job)) as [|first rest];
    [done|].
  simpl time_Now.
  destruct (ConvertToIncidentPayload _ _ _ _) as [built|]; [|done].
  simpl services_CreateIncident.
  by destruct (service _ _ _), (services_CreateIncident w _ _ _).
Qed.
End FiringProperties.

(** ** The parameters of a job *)

(** X15: no parameter has an empty value, and the map has one entry for
    oncall_enable and one more for each override that is not empty. *)
Theorem X15_params_values_non_empty_and_counted (job : ScheduledJob) :
  (forall key value,
      buildParamsFromJob job !! key = Some value -> value <> "") /\
  size (buildParamsFromJob job)
  = 1 + length (List.filter (fun field => negb (bool_decide (field = "")))
                  [ SlackChannelID (Channels job);
                    TelegramChatID (Channels job);
                    LarkWebhookKey (Channels job);
                    MSTeamsPowerURLKey (Channels job);
                    EmailTo (Channels job) ]).
Proof.
  unfold buildParamsFromJob.
  destruct (Channels job) as [slack telegram lark teams email]; simpl.
  split.
  - intros key value.
    repeat case_bool_decide; simpl; intros Hkey;
      repeat (apply lookup_insert_Some in Hkey as [[_ <-]|[_ Hkey]];
              [done|]);
      by rewrite lookup_empty in Hkey.
  - repeat case_bool_decide; simpl.
    all: rewrite ?map_size_insert_None by (by simplify_map_eq).
    all: by rewrite map_size_empty.
Qed.

(** ** Registration, start and status *)

Section LifecycleProperties.
Context {Time : Type}.
Variable Format_RFC3339 : Time -> string.
Variable Unix : Time -> Z.
Variable Format_DateTime : Time -> string.
Context {Cron : Type}.
Variable AddFunc : Cron -> string -> JobFunc Time -> Cron * result EntryID.
Variable cron_Start : Cron -> Cron.
Variable cron_Entry : Cron -> EntryID -> Entry Time.
Implicit Types (s : Scheduler Cron) (job : ScheduledJob).
Implicit Types (configured : list ScheduledJob).

(** The three ways [addJob] can end. *)
Lemma addJob_cases s job :
  let '(s', logged, err) := addJob Format_RFC3339 Unix AddFunc s job in
  config s' = config s /\
  ((err = None /\ Enable job = false /\ s' = s) \/
   (err = None /\ Enable job = true /\ Schedule job <> "" /\
    exists entryID, jobs s' = <[Name job := entryID]> (jobs s)) \/
   (exists cause,
       err = Some cause /\ Enable job = true /\ jobs s' = jobs s /\
       (Schedule job = "" -> s' = s))).
Proof.
  unfold addJob. destruct (Enable job); simpl; [|by auto].
  case_bool_decide as Hschedule; simpl.
  { split; [done|]. right. right. by eexists. }
  destruct (AddFunc _ _ _) as [c [entryID|cause]]; simpl.
  - split; [done|]. right. left. repeat split; [done|]. by eexists.
  - split; [done|]. right. right. eexists. by repeat split.
Qed.

Lemma Start_range_spec configured s :
  let '(s', logged, err) :=
    Start_range Format_RFC3339 Unix AddFunc s configured in
  config s' = config s /\
  dom (jobs s) ⊆ dom (jobs s') /\
  dom (jobs s')
  ⊆ dom (jobs s) ∪ list_to_set (Name <$> List.filter Enable configured) /\
  match err with
  | None =>
      dom (jobs s')
      = dom (jobs s) ∪ list_to_set (Name <$> List.filter Enable configured) /\
      forall job, job ∈ configured -> Enable job = true -> Schedule job <> ""
  | Some cause =>
      exists failing inner,
        failing ∈ configured /\ Enable failing = true /\
        cause = "failed to add job '" +:+ Name failing +:+ "': " +:+ inner
  end.
Proof.
  revert s. induction configured as [|job rest IH]; intros s;
    cbn [Start_range List.filter].
  - rewrite fmap_nil, list_to_set_nil, (right_id_L ∅ (∪)).
    repeat split; try done.
    intros job Hin. by apply elem_of_nil in Hin.
  - pose proof (addJob_cases s job) as Hadd.
    destruct (addJob Format_RFC3339 Unix AddFunc s job)
      as [[s1 logged1] [cause|]]; simpl in Hadd.
    + destruct Hadd as [Hconfig [(? & _)|[(? & _)|Hfail]]]; try done.
      destruct Hfail as (cause' & [= <-] & Henabled & Hjobs & _).
      rewrite Hjobs, Henabled.
      split; [done|]. split; [done|]. split; [apply union_subseteq_l|].
      exists job, cause. repeat split; [by left|done].
    + specialize (IH s1).
      destruct (Start_range Format_RFC3339 Unix AddFunc s1 rest)
        as [[s2 logged2] err]; simpl in IH.
      destruct IH as (Hconfig2 & Hgrow & Hbound & Hend).
      set (later := list_to_set (Name <$> List.filter Enable rest)
                    : gset string) in *.
      destruct Hadd as [Hconfig [(_ & Hdisabled & ->)|[Hok|Hfail]]].
      * rewrite Hdisabled. split; [done|]. split; [done|]. split; [done|].
        destruct err as [cause|].
        -- destruct Hend as (failing & inner & Hin & Hen & ->).
           exists failing, inner. repeat split; [by right|done].
        -- destruct Hend as [Hdom Hvalid]. split; [done|].
           intros job' Hin Hen.
           apply elem_of_cons in Hin as [->|Hin]; [congruence|by apply Hvalid].
      * destruct Hok as (_ & Henabled & Hschedule & entryID & Hjobs).
        rewrite Henabled, fmap_cons, list_to_set_cons. fold later.
        rewrite Hjobs, dom_insert_L in Hgrow, Hbound, Hend.
        clearbody later.
        split; [congruence|].
        split; [etrans; [apply union_subseteq_r|exact Hgrow]|].
        split.
        { etrans; [exact Hbound|].
          intros name. rewrite !elem_of_union. tauto. }
        destruct err as [cause|].
        -- destruct Hend as (failing & inner & Hin & Hen & ->).
           exists failing, inner. repeat split; [by right|done].
        -- destruct Hend as [Hdom Hvalid]. split.
           { rewrite Hdom. apply set_eq. intros name.
             rewrite !elem_of_union. tauto. }
           intros job' Hin Hen.
           apply elem_of_cons in Hin as [->|Hin]; [done|by apply Hvalid].
      * by destruct Hfail as (cause & [=] & _).
Qed.

(** Where the loop stops: the jobs before the refused one were all handed
    to [addJob], and the loop returns what [addJob] left for the refused
    job. *)
Lemma Start_range_failure configured s s' logged cause :
  Start_range Format_RFC3339 Unix AddFunc s configured
  = (s', logged, Some cause) ->
  exists before failing after s1 logged1 logged2 inner,
    configured = before ++ failing :: after /\
    Start_range Format_RFC3339 Unix AddFunc s before = (s1, logged1, None) /\
    addJob Format_RFC3339 Unix AddFunc s1 failing
    = (s', logged2, Some inner) /\
    logged = logged1 ++ logged2 /\
    cause = "failed to add job '" +:+ Name failing +:+ "': " +:+ inner.
Proof.
  revert s logged.
  induction configured as [|job rest IH]; intros s logged; simpl; [done|].
  destruct (addJob Format_RFC3339 Unix AddFunc s job)
    as [[s1 logged1] [inner|]] eqn:Hadd.
  - intros [= -> -> <-].
    exists [], job, rest, s, [], logged, inner. by repeat split.
  - destruct (Start_range Format_RFC3339 Unix AddFunc s1 rest)
      as [[s2 logged2] err] eqn:Hrest.
    intros [= -> <- ->].
    apply IH in Hrest
      as (before & failing & after & s3 & l1 & l2 & inner
          & -> & Hbefore & Hfail & -> & ->).
    exists (job :: before), failing, after, s3, (logged1 ++ l1), l2, inner.
    simpl. rewrite Hadd, Hbefore.
    repeat split; [done|]. by rewrite app_assoc.
Qed.

Lemma Start_range_refuses_empty_schedule configured s job :
  job ∈ configured -> Enable job = true -> Schedule job = "" ->
  is_Some (Start_range Format_RFC3339 Unix AddFunc s configured).2.
Proof.
  intros Hin Henabled Hschedule. revert s.
  induction configured as [|job' rest IH]; intros s;
    [by apply elem_of_nil in Hin|].
  simpl.
  pose proof (addJob_cases s job') as Hadd.
  destruct (addJob Format_RFC3339 Unix AddFunc s job')
    as [[s1 logged1] [cause|]]; simpl in Hadd; [by eexists|].
  apply elem_of_cons in Hin as [<-|Hin].
  - destruct Hadd as [_ [(_ & ? & _)|[(_ & _ & ? & _)|(? & [=] & _)]]];
      congruence.
  - specialize (IH Hin s1).
    by destruct (Start_range Format_RFC3339 Unix AddFunc s1 rest)
      as [[s2 logged2] err].
Qed.

(** X16: with scheduled alerts enabled, one enabled job with an empty
    schedule anywhere in the configuration makes [Start] fail, whatever the
    cron engine answers; the error names an enabled job of the
    configuration, the first one that could not be added. *)
Theorem X16_start_fails_on_empty_schedule s job :
  ConfigEnable (config s) = true ->
  job ∈ Jobs (config s) ->
  Enable job = true ->
  Schedule job = "" ->
  exists failing inner,
    (Start Format_RFC3339 Unix Format_DateTime AddFunc cron_Start cron_Entry
       s).2
    = Some ("failed to add job '" +:+ Name failing +:+ "': " +:+ inner) /\
    failing ∈ Jobs (config s) /\
    Enable failing = true.
Proof.
  intros Hon Hin Henabled Hschedule. unfold Start. rewrite Hon. simpl.
  pose proof (Start_range_refuses_empty_schedule (Jobs (config s)) s job
                Hin Henabled Hschedule) as [cause Hcause].
  pose proof (Start_range_spec (Jobs (config s)) s) as Hspec.
  destruct (Start_range Format_RFC3339 Unix AddFunc s (Jobs (config s)))
    as [[s' logged] err]; simpl in Hspec.
  simpl in Hcause. subst err.
  destruct Hspec as (_ & _ & _ & failing & inner & Hfailing & Hen & ->).
  by exists failing, inner.
Qed.

(** X17: [Start] never removes a name from the registry and adds only
    names of enabled jobs of the configuration; it leaves the configuration
    as it is; with scheduled alerts disabled it changes nothing.  When it
    succeeds, the names added are those of all the enabled jobs, each of
    which has a non-empty schedule.  When it fails, nothing is rolled
    back: the configured jobs split into those before the refused job, the
    refused job and the rest; the scheduler returned is the one [addJob]
    left for the refused job after the jobs before it were registered, so
    that its registry is the registry after these registrations and holds
    the name of every enabled job before the refused one. *)
Theorem X17_start_registry_names s :
  let started :=
    Start Format_RFC3339 Unix Format_DateTime AddFunc cron_Start cron_Entry
      s in
  let enabled : gset string :=
    list_to_set (Name <$> List.filter Enable (Jobs (config s))) in
  config started.1.1 = config s /\
  dom (jobs s) ⊆ dom (jobs started.1.1) /\
  dom (jobs started.1.1) ⊆ dom (jobs s) ∪ enabled /\
  (ConfigEnable (config s) = false -> started.1.1 = s /\ started.2 = None) /\
  (ConfigEnable (config s) = true ->
   started.2 = None ->
   dom (jobs started.1.1) = dom (jobs s) ∪ enabled /\
   forall job,
     job ∈ Jobs (config s) -> Enable job = true -> Schedule job <> "") /\
  (ConfigEnable (config s) = true ->
   forall cause,
     started.2 = Some cause ->
     exists before failing after,
       Jobs (config s) = before ++ failing :: after /\
       Enable failing = true /\
       let registered :=
         Start_range Format_RFC3339 Unix AddFunc s before in
       let refused :=
         addJob Format_RFC3339 Unix AddFunc registered.1.1 failing in
       registered.2 = None /\
       (exists inner,
           refused.2 = Some inner /\
           cause
           = "failed to add job '" +:+ Name failing +:+ "': " +:+ inner) /\
       started.1.1 = refused.1.1 /\
       jobs started.1.1 = jobs registered.1.1 /\
       dom (jobs started.1.1)
       = dom (jobs s) ∪ list_to_set (Name <$> List.filter Enable before) /\
       forall job,
         job ∈ before -> Enable job = true ->
         Name job ∈ dom (jobs started.1.1)).
Proof.
  intros started enabled. subst started enabled. unfold Start.
  destruct (ConfigEnable (config s)); simpl.
  2: { repeat split; try done. apply union_subseteq_l. }
  pose proof (Start_range_spec (Jobs (config s)) s) as Hspec.
  destruct (Start_range Format_RFC3339 Unix AddFunc s (Jobs (config s)))
    as [[s' logged] [cause|]] eqn:Hrange; simpl in Hspec; simpl.
  - destruct Hspec as (Hconfig & Hgrow & Hbound & _).
    do 5 (split; [done|]).
    intros _ cause' [= <-].
    apply Start_range_failure in Hrange
      as (before & failing & after & s1 & logged1 & logged2 & inner
          & Hsplit & Hbefore & Hadd & _ & ->).
    pose proof (Start_range_spec before s) as Hregistered.
    pose proof (addJob_cases s1 failing) as Hrefused.
    rewrite Hbefore in Hregistered. rewrite Hadd in Hrefused.
    simpl in Hregistered, Hrefused.
    destruct Hregistered as (_ & _ & _ & Hdom & _).
    destruct Hrefused
      as [_ [(? & _)|[(? & _)|(? & _ & Henabled & Hjobs & _)]]]; try done.
    exists before, failing, after.
    split; [exact Hsplit|]. split; [exact Henabled|].
    rewrite Hbefore. simpl. rewrite Hadd. simpl.
    split; [done|]. split; [by exists inner|]. split; [done|].
    split; [exact Hjobs|].
    assert (Hnames :
      dom (jobs s')
      = dom (jobs s) ∪ list_to_set (Name <$> List.filter Enable before))
      by by rewrite Hjobs.
    split; [exact Hnames|].
    intros job Hin Hen. rewrite Hnames, elem_of_union. right.
    apply elem_of_list_to_set, list_elem_of_fmap. exists job.
    split; [done|]. by apply elem_of_List_filter.
  - destruct Hspec as (Hconfig & Hgrow & Hbound & Hdom & Hvalid).
    by repeat split.
Qed.

(** X18: two enabled jobs with the same name that the engine both accepts
    leave one registry entry for the name, with the entry id of the second
    registration: the first id is no longer in the registry under that
    name, while the engine was asked to schedule both. *)
Theorem X18_same_name_last_registration_wins
    s job job' (c c' : Cron) (entryID entryID' : EntryID) :
  Enable job = true -> Schedule job <> "" ->
  Enable job' = true -> Schedule job' <> "" ->
  Name job' = Name job ->
  AddFunc (cron s) (Schedule job) (createJobFunc Format_RFC3339 Unix job)
  = (c, Ok entryID) ->
  AddFunc c (Schedule job') (createJobFunc Format_RFC3339 Unix job')
  = (c', Ok entryID') ->
  let first := (addJob Format_RFC3339 Unix AddFunc s job).1.1 in
  let second := (addJob Format_RFC3339 Unix AddFunc first job').1.1 in
  (addJob Format_RFC3339 Unix AddFunc first job').2 = None /\
  cron second = c' /\
  jobs second = <[Name job := entryID']> (jobs s) /\
  jobs second !! Name job = Some entryID' /\
  dom (jobs second) = dom (jobs first) /\
  size (jobs second) = size (jobs first).
Proof.
  intros Hen Hsched Hen' Hsched' Hname Hadd Hadd' first second.
  subst first second. unfold addJob.
  rewrite Hen, Hen'. simpl.
  rewrite !bool_decide_eq_false_2 by done.
  rewrite Hadd. simpl. rewrite Hadd'. simpl.
  rewrite Hname, insert_insert_eq.
  split; [done|]. split; [done|]. split; [done|].
  split; [by rewrite lookup_insert_eq|].
  assert (Hdom : dom (<[Name job := entryID']> (jobs s))
                 = dom (<[Name job := entryID]> (jobs s)))
    by by rewrite !dom_insert_L.
  split; [exact Hdom|].
  by rewrite <- !size_dom, Hdom.
Qed.

Lemma GetJobStatus_fmap s :
  GetJobStatus cron_Entry s
  = (fun '(name, entryID) =>
       let entry := cron_Entry (cron s) entryID in
       {| StatusName := name;
          NextRun := EntryNext entry;
          PrevRun := EntryPrev entry;
          Running := bool_decide (is_Some (EntryJob entry)) |})
    <$> map_to_list (jobs s).
Proof.
  unfold GetJobStatus.
  assert (Hloop :
    forall (entries : list (string * EntryID))
           (statuses : list (JobStatus Time)),
      foldl (fun statuses '(name, entryID) =>
               let entry := cron_Entry (cron s) entryID in
               statuses ++
               [{| StatusName := name;
                   NextRun := EntryNext entry;
                   PrevRun := EntryPrev entry;
                   Running := bool_decide (is_Some (EntryJob entry)) |}])
            statuses entries
      = statuses ++
        ((fun '(name, entryID) =>
            let entry := cron_Entry (cron s) entryID in
            {| StatusName := name;
               NextRun := EntryNext entry;
               PrevRun := EntryPrev entry;
               Running := bool_decide (is_Some (EntryJob entry)) |})
         <$> entries)).
  { induction entries as [|[name entryID] rest IH]; intros statuses; simpl.
    - by rewrite app_nil_r.
    - rewrite IH. by rewrite <- app_assoc. }
  apply Hloop.
Qed.

Lemma GetJobStatus_names s :
  StatusName <$> GetJobStatus cron_Entry s = (map_to_list (jobs s)).*1.
Proof.
  rewrite GetJobStatus_fmap, <- list_fmap_compose.
  apply list_fmap_ext. by intros i [name entryID] _.
Qed.

(** X19: the status report has one status per registry entry and no name
    twice; a status is in the report exactly when its name is registered
    and its fields are read from the engine's entry for the registered id,
    [Running] telling whether that entry has a job. *)
Theorem X19_status_report_mirrors_registry s :
  length (GetJobStatus cron_Entry s) = size (jobs s) /\
  NoDup (StatusName <$> GetJobStatus cron_Entry s) /\
  forall status,
    status ∈ GetJobStatus cron_Entry s <->
    exists entryID,
      jobs s !! StatusName status = Some entryID /\
      status
      = {| StatusName := StatusName status;
           NextRun := EntryNext (cron_Entry (cron s) entryID);
           PrevRun := EntryPrev (cron_Entry (cron s) entryID);
           Running :=
             bool_decide
               (is_Some (EntryJob (cron_Entry (cron s) entryID))) |}.
Proof.
  split; [|split].
  - rewrite GetJobStatus_fmap, length_fmap. apply length_map_to_list.
  - rewrite GetJobStatus_names. apply NoDup_fst_map_to_list.
  - intros status. rewrite GetJobStatus_fmap, list_elem_of_fmap. split.
    + intros ([name entryID] & -> & Hin). simpl.
      apply elem_of_map_to_list in Hin. by exists entryID.
    + intros (entryID & Hin & Heq).
      exists (StatusName status, entryID). split; [done|].
      by apply elem_of_map_to_list.
Qed.

End LifecycleProperties.

Section NewSchedulerProperties.
Context {Time : Type}.
Variable Format_RFC3339 : Time -> string.
Variable Unix : Time -> Z.
Variable Format_DateTime : Time -> string.
Context {Location : Type}.
Variable time_Local : Location.
Variable time_LoadLocation : string -> result Location.
Context {Cron : Type}.
Variable cron_New : Location -> Cron.
Variable AddFunc : Cron -> string -> JobFunc Time -> Cron * result EntryID.
Variable cron_Start : Cron -> Cron.
Variable cron_Entry : Cron -> EntryID -> Entry Time.

(** X20: whatever the configuration, enabled or not, a new scheduler
    keeps it as it is and has an empty registry, and so an empty status
    report.  [Start] on it with scheduled alerts disabled leaves the report
    empty; after a successful [Start] on it with scheduled alerts enabled,
    the names in the status report are exactly the names of the enabled
    jobs of the configuration. *)
Theorem X20_new_start_status cfg :
  let s := (NewScheduler time_Local time_LoadLocation cron_New cfg).1 in
  let started :=
    Start Format_RFC3339 Unix Format_DateTime AddFunc cron_Start cron_Entry
      s in
  config s = cfg /\
  jobs s = ∅ /\
  GetJobStatus cron_Entry s = [] /\
  (ConfigEnable cfg = false ->
   started.2 = None /\ GetJobStatus cron_Entry started.1.1 = []) /\
  (ConfigEnable cfg = true ->
   started.2 = None ->
   forall name,
     name ∈ StatusName <$> GetJobStatus cron_Entry started.1.1 <->
     exists job, job ∈ Jobs cfg /\ Enable job = true /\ Name job = name).
Proof.
  intros s started.
  assert (Hs : config s = cfg /\ jobs s = ∅).
  { subst s. unfold NewScheduler.
    destruct (negb _); [destruct (time_LoadLocation _)|]; done. }
  destruct Hs as [Hconfig Hjobs].
  assert (Hempty : GetJobStatus cron_Entry s = []).
  { rewrite GetJobStatus_fmap, Hjobs. by rewrite map_to_list_empty. }
  split; [done|]. split; [done|]. split; [done|]. split.
  { intros Hoff. subst started. unfold Start. by rewrite Hconfig, Hoff. }
  intros Hon Hok name. rewrite GetJobStatus_names.
  pose proof (Start_range_spec Format_RFC3339 Unix AddFunc
                (Jobs (config s)) s) as Hspec.
  subst started. unfold Start in *. rewrite Hconfig, Hon in *. simpl in *.
  destruct (Start_range Format_RFC3339 Unix AddFunc s (Jobs cfg))
    as [[s' logged] [cause|]]; [done|]. simpl.
  destruct Hspec as (_ & _ & _ & Hdom & _).
  rewrite Hjobs, dom_empty_L, (left_id_L ∅ (∪)) in Hdom.
  assert (Hname : name ∈ (map_to_list (jobs s')).*1 <-> name ∈ dom (jobs s')).
  { rewrite list_elem_of_fmap, elem_of_dom. split.
    - intros ([key entryID] & -> & Hin).
      apply elem_of_map_to_list in Hin. by eexists.
    - intros [entryID Hin]. exists (name, entryID).
      split; [done|]. by apply elem_of_map_to_list. }
  rewrite Hname, Hdom, elem_of_list_to_set, list_elem_of_fmap.
  split.
  - intros (job & -> & Hin). apply elem_of_List_filter in Hin as [Hin Hen].
    by exists job.
  - intros (job & Hin & Hen & <-). exists job. split; [done|].
    by apply elem_of_List_filter.
Qed.
End NewSchedulerProperties.

(** ** More on ParseSimpleSchedule *)

Lemma strings_TrimLeft_zeros (n : nat) (s : string) :
  strings_TrimLeft (repeatByte "0"%char n +:+ s) "0" = strings_TrimLeft s "0".
Proof.
  induction n as [|n IH]; [done|].
  simpl repeatByte. rewrite append_String. simpl. exact IH.
Qed.

Lemma countByte_zeros (n : nat) :
  countByte ":"%char (repeatByte "0"%char n) = 0.
Proof. induction n as [|n IH]; [done|]. simpl. exact IH. Qed.

Lemma ParseSimpleSchedule_fields (h m : string) :
  countByte ":"%char h = 0 -> countByte ":"%char m = 0 ->
  ParseSimpleSchedule (h +:+ ":" +:+ m)
  = Ok ((if decide (strings_TrimLeft m "0" = "")
         then "0" else strings_TrimLeft m "0")
        +:+ " "
        +:+ (if decide (strings_TrimLeft h "0" = "")
             then "0" else strings_TrimLeft h "0")
        +:+ " * * *").
Proof.
  intros Hh Hm. unfold ParseSimpleSchedule.
  change (":" +:+ m) with (String ":"%char m).
  by rewrite (strings_Split_two h m ":"%char Hh Hm).
Qed.

(** X21: every time of the day written with two digits for the hour and
    two for the minute is turned into the daily cron pattern of that
    minute and hour, written without leading zeros. *)
Theorem X21_clock_times_become_daily_patterns (h m : nat) :
  h < 24 -> m < 60 ->
  ParseSimpleSchedule (twoDigits h +:+ ":" +:+ twoDigits m)
  = Ok (pretty m +:+ " " +:+ pretty h +:+ " * * *").
Proof.
  intros Hh Hm.
  assert (Hall :
    forallb (fun h =>
      forallb (fun m =>
        match ParseSimpleSchedule (twoDigits h +:+ ":" +:+ twoDigits m) with
        | Ok spec =>
            bool_decide (spec = pretty m +:+ " " +:+ pretty h +:+ " * * *")
        | Err _ => false
        end) (seq 0 60)) (seq 0 24) = true) by (vm_compute; reflexivity).
  rewrite forallb_forall in Hall.
  specialize (Hall h). rewrite in_seq in Hall.
  specialize (Hall ltac:(lia)).
  rewrite forallb_forall in Hall.
  specialize (Hall m). rewrite in_seq in Hall.
  specialize (Hall ltac:(lia)).
  destruct (ParseSimpleSchedule _) as [spec|]; [|done].
  by apply bool_decide_eq_true in Hall as ->.
Qed.

(** X22: more zeros in front of a field change nothing: the hour and the
    minute may be written with any number of leading zeros. *)
Theorem X22_leading_zeros_are_ignored (h m : string) (n k : nat) :
  countByte ":"%char h = 0 -> countByte ":"%char m = 0 ->
  ParseSimpleSchedule
    ((repeatByte "0"%char n +:+ h) +:+ ":" +:+ (repeatByte "0"%char k +:+ m))
  = ParseSimpleSchedule (h +:+ ":" +:+ m).
Proof.
  intros Hh Hm.
  rewrite !ParseSimpleSchedule_fields; try done.
  - by rewrite !strings_TrimLeft_zeros.
  - by rewrite countByte_app, countByte_zeros.
  - by rewrite countByte_app, countByte_zeros.
Qed.

(** ** The overrides of the configuration *)

Ltac unfold_overwrites :=
  cbv beta zeta delta
    [overwrite_slack_channel_id overwrite_telegram_chat_id
     overwrite_viber_user_id overwrite_viber_channel_id overwrite_email_to
     overwrite_email_subject overwrite_msteams_other_power_url
     overwrite_lark_other_webhook_url overwrite_oncall_enable
     overwrite_oncall_wait_minutes overwrite_awsim_other_response_plan
     overwrite_pagerduty_other_routing_key].

(** One statement of the function: the goal speaks of the configuration
    after it, the context of the configuration before it. *)
Ltac use_parameters :=
  repeat match goal with
         | H : index ?p ?k = _ |- context [index ?p ?k] => rewrite H
         end;
  try change (strconv_ParseBool "false") with (Some false);
  try change (strconv_ParseBool "") with (@None bool).

Ltac solve_step P Q :=
  unfold_overwrites; unfold P, Q in *; destruct_and?;
  use_parameters;
  repeat (first [case_bool_decide | case_match]; use_parameters);
  simpl in *; subst;
  solve [done | congruence | auto | split; congruence].

(** Go through the statements from the first to the last, knowing [Q] of
    the configuration until [P] can be shown and [P] from then on. *)
Ltac walk_from P Q c Hc :=
  match goal with
  | |- context [?f ?p c] =>
      lazymatch type of (f p c) with
      | Config =>
          let c' := fresh "c" in
          let H' := fresh "H" in
          set (c' := f p c);
          first [ assert (H' : P c') by (subst c'; solve_step P Q)
                | assert (H' : Q c') by (subst c'; solve_step P Q) ];
          clearbody c'; clear Hc; walk_from P Q c' H'
      end
  | _ => unfold P, Q in *; assumption
  end.

Lemma index_cond_insert_ne (b : bool) (m : gmap string string)
    (key key' value : string) :
  key <> key' ->
  index (if b then <[key := value]> m else m) key' = index m key'.
Proof.
  intros Hne. destruct b; [|done]. unfold index. by rewrite lookup_insert_ne.
Qed.

Lemma index_cond_insert_eq (m : gmap string string) (key value : string) :
  index m key = "" ->
  index (if negb (bool_decide (value = "")) then <[key := value]> m else m)
    key = value.
Proof.
  intros Hm. case_bool_decide as Hvalue; simpl.
  - by rewrite Hm.
  - unfold index. by rewrite lookup_insert_eq.
Qed.

Lemma index_buildParamsFromJob (job : ScheduledJob) :
  let params := buildParamsFromJob job in
  index params "slack_channel_id" = SlackChannelID (Channels job) /\
  index params "telegram_chat_id" = TelegramChatID (Channels job) /\
  index params "viber_user_id" = "" /\
  index params "viber_channel_id" = "" /\
  index params "email_to" = EmailTo (Channels job) /\
  index params "email_subject" = "" /\
  index params "msteams_other_power_url"
  = MSTeamsPowerURLKey (Channels job) /\
  index params "lark_other_webhook_url" = LarkWebhookKey (Channels job) /\
  index params "oncall_enable" = "false" /\
  index params "oncall_wait_minutes" = "" /\
  index params "awsim_other_response_plan" = "" /\
  index params "pagerduty_other_routing_key" = "".
Proof.
  cbv delta [buildParamsFromJob]. cbv beta zeta.
  repeat split.
  all: rewrite ?index_cond_insert_ne by done.
  all: try (rewrite index_cond_insert_eq; [done|]).
  all: rewrite ?index_cond_insert_ne by done.
  all: done.
Qed.

Section OverwriteProperties.
Variable cloneConfig : Config -> Config.
Context {Float64 : Type}.
Variable strconv_ParseFloat : string -> option Float64.
Variable int_of_float64 : Float64 -> Z.
Implicit Types (cfg c : Config) (params : gmap string string).

(** A property of configurations that every assignment keeps is kept by
    the whole function. *)
Lemma GetConfigWitParamsOverwrite_keeps (I : Config -> Prop) cfg params :
  (forall v c, I c -> I (assign_Slack_ChannelID v c)) ->
  (forall v c, I c -> I (assign_Telegram_ChatID v c)) ->
  (forall v c, I c -> I (assign_Viber_UserID v c)) ->
  (forall v c, I c -> I (assign_Viber_ChannelID v c)) ->
  (forall v c, I c -> I (assign_Email_To v c)) ->
  (forall v c, I c -> I (assign_Email_Subject v c)) ->
  (forall v c, I c -> I (assign_MSTeams_PowerAutomateURL v c)) ->
  (forall v c, I c -> I (assign_Lark_WebhookURL v c)) ->
  (forall v c, I c -> I (assign_OnCall_Enable v c)) ->
  (forall v c, I c -> I (assign_OnCall_WaitMinutes v c)) ->
  (forall v c, I c -> I (assign_AwsIM_ResponsePlanArn v c)) ->
  (forall v c, I c -> I (assign_PagerDuty_RoutingKey v c)) ->
  I (cloneConfig cfg) ->
  I (GetConfigWitParamsOverwrite cloneConfig strconv_ParseFloat
       int_of_float64 cfg params).
Proof.
  intros H1 H2 H3 H4 H5 H6 H7 H8 H9 H10 H11 H12 Hclone.
  cbv delta [GetConfigWitParamsOverwrite]. cbv beta zeta.
  generalize dependent (cloneConfig cfg). intros base Hbase.
  set (P := I). walk_from P P base Hbase.
Qed.

(** X23: with the parameters of a scheduled job, on-call is switched off
    whatever the configuration says; the Slack channel, the Telegram chat
    and the e-mail recipient are the job's overrides where these are not
    empty and the configured ones otherwise; and the fields behind the
    parameters a job never sets (Viber, the e-mail subject, the on-call
    wait, the response plan and the routing key) stay as configured. *)
Theorem X23_scheduled_params_switch_oncall_off cfg (job : ScheduledJob) :
  let base := cloneConfig cfg in
  let c :=
    GetConfigWitParamsOverwrite cloneConfig strconv_ParseFloat
      int_of_float64 cfg (buildParamsFromJob job) in
  let override (field configured : string) :=
    if bool_decide (field = "") then configured else field in
  OnCall_Enable (Config_OnCall c) = false /\
  OnCall_WaitMinutes (Config_OnCall c)
  = OnCall_WaitMinutes (Config_OnCall base) /\
  OnCall_AwsIncidentManager (Config_OnCall c)
  = OnCall_AwsIncidentManager (Config_OnCall base) /\
  OnCall_PagerDuty (Config_OnCall c) = OnCall_PagerDuty (Config_OnCall base) /\
  Slack_ChannelID (Alert_Slack (Config_Alert c))
  = override (SlackChannelID (Channels job))
      (Slack_ChannelID (Alert_Slack (Config_Alert base))) /\
  Telegram_ChatID (Alert_Telegram (Config_Alert c))
  = override (TelegramChatID (Channels job))
      (Telegram_ChatID (Alert_Telegram (Config_Alert base))) /\
  Email_To (Alert_Email (Config_Alert c))
  = override (EmailTo (Channels job))
      (Email_To (Alert_Email (Config_Alert base))) /\
  Email_Subject (Alert_Email (Config_Alert c))
  = Email_Subject (Alert_Email (Config_Alert base)) /\
  Alert_Viber (Config_Alert c) = Alert_Viber (Config_Alert base).
Proof.
  intros base c override. subst c override.
  pose proof (index_buildParamsFromJob job) as Hindex. cbv zeta in Hindex.
  destruct Hindex
    as (Hi1 & Hi2 & Hi3 & Hi4 & Hi5 & Hi6 & Hi7 & Hi8 & Hi9 & Hi10 & Hi11
        & Hi12).
  cbv delta [GetConfigWitParamsOverwrite]. cbv beta zeta.
  change (cloneConfig cfg) with base. clearbody base.
  assert (Hbase : base = base) by done.
  split; [|split; [|split; [|split; [|split; [|split; [|split; [|split]]]]]]].
  - set (P := fun c : Config => OnCall_Enable (Config_OnCall c) = false).
    set (Q := fun c : Config => c = c).
    walk_from P Q base Hbase.
  - set (P := fun c : Config =>
               OnCall_WaitMinutes (Config_OnCall c)
               = OnCall_WaitMinutes (Config_OnCall base)).
    walk_from P P base Hbase.
  - set (P := fun c : Config =>
               OnCall_AwsIncidentManager (Config_OnCall c)
               = OnCall_AwsIncidentManager (Config_OnCall base)).
    walk_from P P base Hbase.
  - set (P := fun c : Config =>
               OnCall_PagerDuty (Config_OnCall c)
               = OnCall_PagerDuty (Config_OnCall base)).
    walk_from P P base Hbase.
  - set (Q := fun c : Config =>
               Slack_ChannelID (Alert_Slack (Config_Alert c))
               = Slack_ChannelID (Alert_Slack (Config_Alert base))).
    set (P := fun c : Config =>
               Slack_ChannelID (Alert_Slack (Config_Alert c))
               = if bool_decide (SlackChannelID (Channels job) = "")
                 then Slack_ChannelID (Alert_Slack (Config_Alert base))
                 else SlackChannelID (Channels job)).
    walk_from P Q base Hbase.
  - set (Q := fun c : Config =>
               Telegram_ChatID (Alert_Telegram (Config_Alert c))
               = Telegram_ChatID (Alert_Telegram (Config_Alert base))).
    set (P := fun c : Config =>
               Telegram_ChatID (Alert_Telegram (Config_Alert c))
               = if bool_decide (TelegramChatID (Channels job) = "")
                 then Telegram_ChatID (Alert_Telegram (Config_Alert base))
                 else TelegramChatID (Channels job)).
    walk_from P Q base Hbase.
  - set (Q := fun c : Config =>
               Email_To (Alert_Email (Config_Alert c))
               = Email_To (Alert_Email (Config_Alert base))).
    set (P := fun c : Config =>
               Email_To (Alert_Email (Config_Alert c))
               = if bool_decide (EmailTo (Channels job) = "")
                 then Email_To (Alert_Email (Config_Alert base))
                 else EmailTo (Channels job)).
    walk_from P Q base Hbase.
  - set (P := fun c : Config =>
               Email_Subject (Alert_Email (Config_Alert c))
               = Email_Subject (Alert_Email (Config_Alert base))).
    walk_from P P base Hbase.
  - set (P := fun c : Config =>
               Alert_Viber (Config_Alert c) = Alert_Viber (Config_Alert base)).
    walk_from P P base Hbase.
Qed.

(** X24: parameters that give none of the twelve keys a non-empty value
    change nothing: the result is the clone of the configuration. *)
Theorem X24_other_parameters_are_ignored cfg params :
  (forall key, key ∈ overwriteKeys -> index params key = "") ->
  GetConfigWitParamsOverwrite cloneConfig strconv_ParseFloat int_of_float64
    cfg params
  = cloneConfig cfg.
Proof.
  intros Hkeys. apply Forall_forall in Hkeys. unfold overwriteKeys in Hkeys.
  repeat (apply Forall_cons in Hkeys as [? Hkeys]).
  cbv delta [GetConfigWitParamsOverwrite]. cbv beta zeta.
  generalize (cloneConfig cfg). intros base.
  set (P := fun c : Config => c = base).
  assert (Hbase : P base) by done.
  walk_from P P base Hbase.
Qed.

(** X25: the function assigns at most the twelve fields: with these
    cleared, the result and the clone are the same configuration.  So the
    queue, proxy, Redis and scheduler settings, the enable flags and
    credentials of the channels and the maps of alternatives are never
    touched. *)
Theorem X25_only_the_twelve_fields_change cfg params :
  let c :=
    GetConfigWitParamsOverwrite cloneConfig strconv_ParseFloat
      int_of_float64 cfg params in
  let base := cloneConfig cfg in
  clearAssigned c = clearAssigned base /\
  Config_Queue c = Config_Queue base /\
  Config_Proxy c = Config_Proxy base /\
  Config_Redis c = Config_Redis base /\
  Config_ScheduledAlert c = Config_ScheduledAlert base /\
  Slack_Enable (Alert_Slack (Config_Alert c))
  = Slack_Enable (Alert_Slack (Config_Alert base)) /\
  Slack_Token (Alert_Slack (Config_Alert c))
  = Slack_Token (Alert_Slack (Config_Alert base)) /\
  MSTeams_OtherPowerURLs (Alert_MSTeams (Config_Alert c))
  = MSTeams_OtherPowerURLs (Alert_MSTeams (Config_Alert base)) /\
  Lark_OtherWebhookURLs (Alert_Lark (Config_Alert c))
  = Lark_OtherWebhookURLs (Alert_Lark (Config_Alert base)).
Proof.
  intros c base.
  assert (Hclear : clearAssigned c = clearAssigned base).
  { subst c base.
    apply (GetConfigWitParamsOverwrite_keeps
             (fun c => clearAssigned c = clearAssigned (cloneConfig cfg)));
      try (by intros v c <-); done. }
  split; [exact Hclear|].
  split; [exact (f_equal Config_Queue Hclear)|].
  split; [exact (f_equal Config_Proxy Hclear)|].
  split; [exact (f_equal Config_Redis Hclear)|].
  split; [exact (f_equal Config_ScheduledAlert Hclear)|].
  split;
    [exact (f_equal (fun c => Slack_Enable (Alert_Slack (Config_Alert c)))
              Hclear)|].
  split;
    [exact (f_equal (fun c => Slack_Token (Alert_Slack (Config_Alert c)))
              Hclear)|].
  split;
    [exact (f_equal
              (fun c => MSTeams_OtherPowerURLs (Alert_MSTeams (Config_Alert c)))
              Hclear)|].
  exact (f_equal
           (fun c => Lark_OtherWebhookURLs (Alert_Lark (Config_Alert c)))
           Hclear).
Qed.

(** X26: on-call is switched by the parameter oncall_enable only when
    [strconv.ParseBool] accepts its value; with any other value, or
    without the parameter, on-call stays as configured. *)
Theorem X26_oncall_enable_needs_a_boolean cfg params :
  OnCall_Enable
    (Config_OnCall
       (GetConfigWitParamsOverwrite cloneConfig strconv_ParseFloat
          int_of_float64 cfg params))
  = match strconv_ParseBool (index params "oncall_enable") with
    | Some parsedBool => parsedBool
    | None => OnCall_Enable (Config_OnCall (cloneConfig cfg))
    end.
Proof.
  cbv delta [GetConfigWitParamsOverwrite]. cbv beta zeta.
  generalize (cloneConfig cfg). intros base.
  set (Q := fun c : Config =>
             OnCall_Enable (Config_OnCall c)
             = OnCall_Enable (Config_OnCall base)).
  set (P := fun c : Config =>
             OnCall_Enable (Config_OnCall c)
             = match strconv_ParseBool (index params "oncall_enable") with
               | Some parsedBool => parsedBool
               | None => OnCall_Enable (Config_OnCall base)
               end).
  assert (Hbase : Q base) by done.
  walk_from P Q base Hbase.
Qed.

(** X27: the Lark webhook and the Teams URL are replaced only by a
    non-empty entry that the configured map of alternatives holds under
    the non-empty value of the parameter; a nil map, an unknown key or an
    empty entry leave the configured address in place. *)
Theorem X27_alternative_must_be_configured cfg params :
  let c :=
    GetConfigWitParamsOverwrite cloneConfig strconv_ParseFloat
      int_of_float64 cfg params in
  let base := cloneConfig cfg in
  let chosen (alternatives : option (gmap string string)) (key : string)
      (configured : string) :=
    match alternatives with
    | Some entries =>
        if bool_decide (key = "") then configured
        else if bool_decide (index entries key = "") then configured
        else index entries key
    | None => configured
    end in
  Lark_WebhookURL (Alert_Lark (Config_Alert c))
  = chosen (Lark_OtherWebhookURLs (Alert_Lark (Config_Alert base)))
      (index params "lark_other_webhook_url")
      (Lark_WebhookURL (Alert_Lark (Config_Alert base))) /\
  MSTeams_PowerAutomateURL (Alert_MSTeams (Config_Alert c))
  = chosen (MSTeams_OtherPowerURLs (Alert_MSTeams (Config_Alert base)))
      (index params "msteams_other_power_url")
      (MSTeams_PowerAutomateURL (Alert_MSTeams (Config_Alert base))).
Proof.
  intros c base chosen. subst c chosen.
  cbv delta [GetConfigWitParamsOverwrite]. cbv beta zeta.
  change (cloneConfig cfg) with base. clearbody base.
  split.
  - set (Q := fun c : Config =>
               Lark_WebhookURL (Alert_Lark (Config_Alert c))
               = Lark_WebhookURL (Alert_Lark (Config_Alert base)) /\
               Lark_OtherWebhookURLs (Alert_Lark (Config_Alert c))
               = Lark_OtherWebhookURLs (Alert_Lark (Config_Alert base))).
    set (P := fun c : Config =>
               Lark_WebhookURL (Alert_Lark (Config_Alert c))
               = match Lark_OtherWebhookURLs (Alert_Lark (Config_Alert base))
                 with
                 | Some entries =>
                     if bool_decide
                          (index params "lark_other_webhook_url" = "")
                     then Lark_WebhookURL (Alert_Lark (Config_Alert base))
                     else if bool_decide
                               (index entries
                                  (index params "lark_other_webhook_url")
                                = "")
                     then Lark_WebhookURL (Alert_Lark (Config_Alert base))
                     else index entries
                            (index params "lark_other_webhook_url")
                 | None => Lark_WebhookURL (Alert_Lark (Config_Alert base))
                 end).
    assert (Hbase : Q base) by done.
    walk_from P Q base Hbase.
  - set (Q := fun c : Config =>
               MSTeams_PowerAutomateURL (Alert_MSTeams (Config_Alert c))
               = MSTeams_PowerAutomateURL (Alert_MSTeams (Config_Alert base))
               /\
               MSTeams_OtherPowerURLs (Alert_MSTeams (Config_Alert c))
               = MSTeams_OtherPowerURLs (Alert_MSTeams (Config_Alert base))).
    set (P := fun c : Config =>
               MSTeams_PowerAutomateURL (Alert_MSTeams (Config_Alert c))
               = match
                   MSTeams_OtherPowerURLs (Alert_MSTeams (Config_Alert base))
                 with
                 | Some entries =>
                     if bool_decide
                          (index params "msteams_other_power_url" = "")
                     then MSTeams_PowerAutomateURL
                            (Alert_MSTeams (Config_Alert base))
                     else if bool_decide
                               (index entries
                                  (index params "msteams_other_power_url")
                                = "")
                     then MSTeams_PowerAutomateURL
                            (Alert_MSTeams (Config_Alert base))
                     else index entries
                            (index params "msteams_other_power_url")
                 | None =>
                     MSTeams_PowerAutomateURL
                       (Alert_MSTeams (Config_Alert base))
                 end).
    assert (Hbase : Q base) by done.
    walk_from P Q base Hbase.
Qed.
End OverwriteProperties.

(** ** The further properties at sample data *)

(** The predicate env=prod and the same with alertname=DiskFull added. *)
Lemma X3_witness :
  let alerts := [Sample.diskProd; Sample.diskDev; Sample.cpuProd] in
  let P : gmap string string := {[ "env" := "prod" ]} in
  let Q : gmap string string := <["alertname" := "DiskFull"]> P in
  FilterAlertsByLabels alerts Q
  = FilterAlertsByLabels (FilterAlertsByLabels alerts P) Q /\
  sublist (FilterAlertsByLabels alerts Q) (FilterAlertsByLabels alerts P).
Proof.
  intros alerts P Q. apply (X3_filter_antitone alerts P Q).
  apply insert_subseteq. reflexivity.
Defined.

(** An alert that came without labels. *)
Lemma X5_witness :
  let bare := Sample.alert "active" ∅ "e5" in
  let P : gmap string string := {[ "env" := "prod" ]} in
  bare ∈ FilterAlertsByLabels [Sample.diskProd; bare] P <-> P = ∅.
Proof.
  intros bare P.
  apply (X5_unlabelled_alert_matches_only_empty_predicate
           [Sample.diskProd; bare] bare P).
  - reflexivity.
  - apply list_elem_of_further, list_elem_of_here.
Defined.

(** The backend answers four alerts, one of them suppressed. *)
Lemma X6_witness :
  let w :=
    Sample.world [Sample.diskProd; Sample.suppressed; Sample.diskDev;
                  Sample.cpuProd] in
  let fetched := [Sample.diskProd; Sample.diskDev; Sample.cpuProd] in
  exists req resp decoded,
    httpClient_Do w req = Ok resp /\
    Header req !! "Accept" = Some "application/json" /\
    StatusCode resp = 200%Z /\
    (Body resp).2 = None /\
    json_Unmarshal w (Body resp).1 = Ok decoded /\
    fetched = List.filter isActive decoded /\
    sublist fetched decoded.
Proof.
  intros w fetched.
  apply (X6_fetch_success_is_active_part_of_body
           (NewAlertmanagerClient "http://alertmanager:9093" "" "") w fetched).
  vm_compute. reflexivity.
Defined.

(** A client with a user name and no password. *)
Lemma X7_witness :
  let c :=
    {| baseURL := "http://alertmanager:9093"; username := "ops";
       password := "" |} in
  let w := Sample.world [Sample.diskProd] in
  GetFiringAlerts c w
  = GetFiringAlerts (NewAlertmanagerClient (baseURL c) "" "") w.
Proof.
  intros c w. apply (X7_partial_credentials_fetch_as_anonymous c w).
  right. reflexivity.
Defined.

(** Two alerts and their two records. *)
Lemma X10_witness :
  let alerts := [Sample.diskProd; Sample.cpuProd] in
  let payload :=
    default ∅ (ConvertToIncidentPayload Sample.Format_RFC3339 Sample.Unix
                 Sample.nine alerts) in
  exists records,
    payload !! "alerts" = Some (VRecords records) /\
    length records = length alerts /\
    forall (i : nat) alert,
      alerts !! i = Some alert ->
      exists record,
        records !! i = Some record /\
        record !! "status" = Some (VString (State (Status alert))) /\
        record !! "labels" = Some (VLabels (Labels alert)) /\
        record !! "annotations" = Some (VLabels (Annotations alert)) /\
        record !! "startsAt"
        = Some (VString (Sample.Format_RFC3339 (StartsAt alert))) /\
        record !! "endsAt"
        = Some (VString (Sample.Format_RFC3339 (EndsAt alert))) /\
        record !! "fingerprint" = Some (VString (Fingerprint alert)) /\
        record !! "generatorURL" = Some (VString (GeneratorURL alert)) /\
        size record = 7.
Proof.
  intros alerts payload.
  apply (X10_records_follow_alerts Sample.Format_RFC3339 Sample.Unix
           Sample.nine alerts payload).
  reflexivity.
Defined.

(** The morning job fires against a backend with four alerts, two of them
    active in production. *)
Lemma X12_witness :
  let job := Sample.job "0 9 * * *" {[ "env" := "prod" ]} in
  let w :=
    Sample.world [Sample.diskProd; Sample.suppressed; Sample.diskDev;
                  Sample.cpuProd] in
  let fetched := [Sample.diskProd; Sample.diskDev; Sample.cpuProd] in
  exists built payload,
    ConvertToIncidentPayload Sample.Format_RFC3339 Sample.Unix
      (time_Now w 0%nat) (FilterAlertsByLabels fetched (MatchLabels job))
    = Some built /\
    List.filter isCreateIncident
      (createJobFunc Sample.Format_RFC3339 Sample.Unix job w)
    = [CreateIncident "scheduled" payload (buildParamsFromJob job)] /\
    payload !! "scheduled_job" = Some (VString (Name job)) /\
    payload !! "scheduled_time"
    = Some (VString (Sample.Format_RFC3339 (time_Now w 1%nat))) /\
    payload !! "groupKey"
    = Some (VString
              ("scheduled-" +:+ pretty (Sample.Unix (time_Now w 0%nat)))) /\
    (forall key, is_Some (built !! key) -> payload !! key = built !! key) /\
    size built = 7 /\
    size payload = 9.
Proof.
  intros job w fetched.
  apply (X12_dispatched_payload_is_built_payload_with_schedule
           Sample.Format_RFC3339 Sample.Unix job w fetched).
  - vm_compute. reflexivity.
  - intros Hempty. vm_compute in Hempty. discriminate Hempty.
Defined.

Lemma X13_witness :
  let job := Sample.job "0 9 * * *" {[ "env" := "prod" ]} in
  let w :=
    Sample.world [Sample.diskProd; Sample.suppressed; Sample.diskDev;
                  Sample.cpuProd] in
  let fetched := [Sample.diskProd; Sample.diskDev; Sample.cpuProd] in
  exists payload first,
    List.filter isCreateIncident
      (createJobFunc Sample.Format_RFC3339 Sample.Unix job w)
    = [CreateIncident "scheduled" payload (buildParamsFromJob job)] /\
    payload !! "alerts"
    = Some (VRecords (List.map (alertPayload Sample.Format_RFC3339)
                        (FilterAlertsByLabels fetched (MatchLabels job)))) /\
    sublist (FilterAlertsByLabels fetched (MatchLabels job)) fetched /\
    (forall alert,
        alert ∈ FilterAlertsByLabels fetched (MatchLabels job) ->
        State (Status alert) = "active" /\ MatchLabels job ⊆ Labels alert) /\
    head (FilterAlertsByLabels fetched (MatchLabels job)) = Some first /\
    payload !! "commonLabels" = Some (VLabels (Labels first)) /\
    MatchLabels job ⊆ Labels first.
Proof.
  intros job w fetched.
  apply (X13_dispatched_alerts_are_active_and_match
           Sample.Format_RFC3339 Sample.Unix job w fetched).
  - vm_compute. reflexivity.
  - intros Hempty. vm_compute in Hempty. discriminate Hempty.
Defined.

(** A configuration whose second job is enabled and has no schedule. *)
Lemma X16_witness :
  let s : Scheduler Sample.RecordingCron :=
    {| cron := [];
       config :=
         SampleSystem.scheduled
           [Sample.job "0 9 * * *" ∅; SampleSystem.broken];
       jobs := ∅ |} in
  exists failing inner,
    (Start Sample.Format_RFC3339 Sample.Unix SampleSystem.Format_DateTime
       Sample.AddFunc SampleSystem.cron_Start SampleSystem.cron_Entry s).2
    = Some ("failed to add job '" +:+ Name failing +:+ "': " +:+ inner) /\
    failing ∈ Jobs (config s) /\
    Enable failing = true.
Proof.
  intros s.
  apply (X16_start_fails_on_empty_schedule
           Sample.Format_RFC3339 Sample.Unix SampleSystem.Format_DateTime
           Sample.AddFunc SampleSystem.cron_Start SampleSystem.cron_Entry
           s SampleSystem.broken).
  - reflexivity.
  - apply list_elem_of_further, list_elem_of_here.
  - reflexivity.
  - reflexivity.
Defined.

(** The second job is refused; the first one stays registered. *)
Lemma X17_witness :
  let s : Scheduler Sample.RecordingCron :=
    {| cron := [];
       config :=
         SampleSystem.scheduled
           [Sample.job "0 9 * * *" ∅; SampleSystem.broken];
       jobs := ∅ |} in
  let started :=
    Start Sample.Format_RFC3339 Sample.Unix SampleSystem.Format_DateTime
      Sample.AddFunc SampleSystem.cron_Start SampleSystem.cron_Entry s in
  started.2
  = Some ("failed to add job 'broken-report': "
          +:+ "schedule is required for job 'broken-report'") /\
  jobs started.1.1 !! "morning-disk-report" = Some 1%Z /\
  exists before failing after,
    Jobs (config s) = before ++ failing :: after /\
    Enable failing = true /\
    jobs started.1.1
    = jobs (Start_range Sample.Format_RFC3339 Sample.Unix Sample.AddFunc
              s before).1.1 /\
    dom (jobs started.1.1)
    = dom (jobs s) ∪ list_to_set (Name <$> List.filter Enable before).
Proof.
  intros s started.
  split; [vm_compute; reflexivity|].
  split; [vm_compute; reflexivity|].
  destruct (X17_start_registry_names
              Sample.Format_RFC3339 Sample.Unix SampleSystem.Format_DateTime
              Sample.AddFunc SampleSystem.cron_Start SampleSystem.cron_Entry s)
    as (_ & _ & _ & _ & _ & Hfails).
  destruct (Hfails eq_refl
              ("failed to add job 'broken-report': "
               +:+ "schedule is required for job 'broken-report'"))
    as (before & failing & after & Hsplit & Henabled & Hrest).
  { vm_compute. reflexivity. }
  destruct Hrest as (_ & _ & _ & Hjobs & Hdom & _).
  exists before, failing, after.
  split; [exact Hsplit|]. split; [exact Henabled|].
  split; [exact Hjobs|exact Hdom].
Defined.

(** The same job name registered for the morning and for the evening. *)
Lemma X18_witness :
  let job := Sample.job "0 9 * * *" ∅ in
  let job' := Sample.job "30 18 * * *" ∅ in
  let first :=
    (addJob Sample.Format_RFC3339 Sample.Unix Sample.AddFunc
       Sample.emptyScheduler job).1.1 in
  let second :=
    (addJob Sample.Format_RFC3339 Sample.Unix Sample.AddFunc first job').1.1 in
  (addJob Sample.Format_RFC3339 Sample.Unix Sample.AddFunc first job').2
  = None /\
  cron second = [(1%Z, "0 9 * * *"); (2%Z, "30 18 * * *")] /\
  jobs second = <[Name job := 2%Z]> (jobs Sample.emptyScheduler) /\
  jobs second !! Name job = Some 2%Z /\
  dom (jobs second) = dom (jobs first) /\
  size (jobs second) = size (jobs first).
Proof.
  intros job job'.
  apply (X18_same_name_last_registration_wins
           Sample.Format_RFC3339 Sample.Unix Sample.AddFunc
           Sample.emptyScheduler job job'
           [(1%Z, "0 9 * * *")]
           [(1%Z, "0 9 * * *"); (2%Z, "30 18 * * *")] 1%Z 2%Z).
  all: try reflexivity.
  all: discriminate.
Defined.

(** A configuration with an unknown time zone, an enabled job and a
    disabled one. *)
Lemma X20_witness :
  let cfg :=
    SampleSystem.scheduled [Sample.job "0 9 * * *" ∅; SampleSystem.evening] in
  let s :=
    (NewScheduler SampleSystem.time_Local SampleSystem.time_LoadLocation
       SampleSystem.cron_New cfg).1 in
  let started :=
    Start Sample.Format_RFC3339 Sample.Unix SampleSystem.Format_DateTime
      Sample.AddFunc SampleSystem.cron_Start SampleSystem.cron_Entry s in
  config s = cfg /\
  jobs s = ∅ /\
  GetJobStatus SampleSystem.cron_Entry s = [] /\
  forall name,
    name ∈ StatusName <$> GetJobStatus SampleSystem.cron_Entry started.1.1 <->
    exists job, job ∈ Jobs cfg /\ Enable job = true /\ Name job = name.
Proof.
  intros cfg s started.
  destruct (X20_new_start_status
              Sample.Format_RFC3339 Sample.Unix SampleSystem.Format_DateTime
              SampleSystem.time_Local SampleSystem.time_LoadLocation
              SampleSystem.cron_New Sample.AddFunc SampleSystem.cron_Start
              SampleSystem.cron_Entry cfg)
    as (Hconfig & Hjobs & Hempty & _ & Hnames).
  split; [exact Hconfig|]. split; [exact Hjobs|]. split; [exact Hempty|].
  apply Hnames.
  - reflexivity.
  - vm_compute. reflexivity.
Defined.

(** Five past nine in the morning. *)
Lemma X21_witness :
  ParseSimpleSchedule (twoDigits 9 +:+ ":" +:+ twoDigits 5)
  = Ok (pretty 5%nat +:+ " " +:+ pretty 9%nat +:+ " * * *").
Proof.
  apply (X21_clock_times_become_daily_patterns 9 5); lia.
Defined.

Lemma X22_witness :
  ParseSimpleSchedule
    ((repeatByte "0"%char 2 +:+ "9") +:+ ":"
     +:+ (repeatByte "0"%char 1 +:+ "5"))
  = ParseSimpleSchedule ("9" +:+ ":" +:+ "5").
Proof.
  apply (X22_leading_zeros_are_ignored "9" "5" 2 1); reflexivity.
Defined.

(** A parameter that the function does not know. *)
Lemma X24_witness :
  GetConfigWitParamsOverwrite SampleSystem.cloneConfig
    SampleSystem.strconv_ParseFloat SampleSystem.int_of_float64
    SampleSystem.configuration {[ "trace_id" := "4bf92f35" ]}
  = SampleSystem.cloneConfig SampleSystem.configuration.
Proof.
  apply (X24_other_parameters_are_ignored SampleSystem.cloneConfig
           SampleSystem.strconv_ParseFloat SampleSystem.int_of_float64
           SampleSystem.configuration {[ "trace_id" := "4bf92f35" ]}).
  intros key Hin. unfold overwriteKeys in Hin.
  repeat (apply elem_of_cons in Hin as [->|Hin]; [reflexivity|]).
  by apply elem_of_nil in Hin.
Defined.
